(** * Crypto tracker: the fetch / cache / routing core of [main.py]

    A shallow embedding of the foreground state of [CryptoTracker], of the
    two worker classes [FetchThread] and [IconFetcher], and of the slots that
    receive their signals.  Widgets are kept only as far as the core reads or
    writes them: column 0 of the table (the item that carries the coin id),
    the icon labels of the cards, the status label, the message boxes raised
    and the chart drawings requested. *)

From Stdlib Require Import ZArith QArith_base Ascii String DecimalString DecimalZ.
From stdpp Require Import gmap strings list fin_maps sorting.

Local Open Scope Z_scope.
Local Open Scope string_scope.
Local Open Scope list_scope.

(** ** Python primitives used by the core *)

Module Py.

(** [str(z)] / [f"{z}"] for an [int]. *)
Definition str_of_int (z : Z) : string :=
  NilZero.string_of_int (Z.to_int z).

(** [int(s)], [None] standing for [ValueError].  The only strings that
    reach [int] in [on_fetch_finished] are the third field of a tag built
    by [start_chart_fetch]: either the decimal rendering of an [int], or a
    text that still contains a colon.  On both kinds this definition agrees
    with Python; the forms Python accepts beyond plain decimals (a leading
    plus sign, surrounding blanks, underscores) never occur there. *)
Definition int_of_str (s : string) : option Z :=
  Z.of_int <$> NilZero.int_of_string s.

(** [s.partition(":")] when a colon occurs: the text before the first
    colon and the text after it. *)
Fixpoint partition_colon (s : string) : option (string * string) :=
  match s with
  | EmptyString => None
  | String c r =>
      if Ascii.eqb c ":"%char then Some (EmptyString, r)
      else match partition_colon r with
           | Some (a, b) => Some (String c a, b)
           | None => None
           end
  end.

(** [":" not in s]. *)
Definition colon_free (s : string) : bool :=
  bool_decide (partition_colon s = None).

(** [s.split(":", maxsplit)]. *)
Fixpoint split_colon (maxsplit : nat) (s : string) : list string :=
  match maxsplit with
  | O => [s]
  | S n =>
      match partition_colon s with
      | None => [s]
      | Some (a, r) => a :: split_colon n r
      end
  end.

(** [s.startswith(p)]. *)
Fixpoint startswith (p s : string) : bool :=
  match p, s with
  | EmptyString, _ => true
  | String a p', String b s' => Ascii.eqb a b && startswith p' s'
  | String _ _, EmptyString => false
  end.

(** [f"{x}"] for a value that is a [str] or [None]. *)
Definition fmt_str (x : option string) : string := default "None" x.

(** [f"{x}"] for a value that is an [int] or [None]. *)
Definition fmt_int (x : option Z) : string :=
  match x with Some z => str_of_int z | None => "None" end.

(** [s.lower()] on ASCII text, which coin symbols are. *)
Definition lower_ascii (c : ascii) : ascii :=
  let n := nat_of_ascii c in
  if ((65 <=? n) && (n <=? 90))%nat then ascii_of_nat (n + 32) else c.

Fixpoint lower (s : string) : string :=
  match s with
  | EmptyString => EmptyString
  | String c r => String (lower_ascii c) (lower r)
  end.

(** [sep.join(l)]. *)
Fixpoint join (sep : string) (l : list string) : string :=
  match l with
  | [] => ""
  | [x] => x
  | x :: r => x +:+ sep +:+ join sep r
  end.

(** [sub in s] for two [str]: [sub] occurs in [s] as a substring. *)
Fixpoint contains (sub s : string) : bool :=
  startswith sub s
  || match s with
     | EmptyString => false
     | String _ r => contains sub r
     end.

End Py.

(** ** Configuration *)

Definition COINS : list string :=
  [ "bitcoin"; "ethereum"; "solana"; "dogecoin"; "cardano"; "ripple";
    "polkadot"; "litecoin"; "tron"; "polygon"; "avalanche-2"; "chainlink";
    "uniswap"; "stellar"; "internet-computer"; "vechain"; "cosmos";
    "filecoin"; "aptos"; "arbitrum" ].

Definition API_URL : string :=
  "https://api.coingecko.com/api/v3/coins/markets".

(** [MARKET_CHART_URL.format(id=coin_id)]. *)
Definition MARKET_CHART_URL (id : string) : string :=
  "https://api.coingecko.com/api/v3/coins/" +:+ id +:+ "/ohlc".

Definition REFRESH_OPTIONS : gmap string Z :=
  <["30s" := 30000]> (<["1m" := 60000]> (<["5m" := 300000]>
    (<["10m" := 600000]> ∅))).

Definition DEFAULT_REFRESH_LABEL : string := "1m".

(** ** Data *)

(** A UTC calendar day, [datetime.now(timezone.utc).date()], as its
    proleptic ordinal: two [date]s are equal exactly when the ordinals are. *)
Abbreviation date := Z (only parsing).

(** One record of the markets payload, with the fields the core routes on
    and the one field whose value can stop [populate_cards]: the price,
    [None] when the provider sends [null] for it.  The other numeric
    columns only feed the presentation and are read through [x or 0]. *)
Record coin := {
  coin_id : string;               (* coin["id"] *)
  coin_name : string;             (* coin["name"] *)
  coin_symbol : string;           (* coin.get("symbol", "") *)
  coin_image : option string;     (* coin.get("image") *)
  coin_price : option Q           (* coin.get("current_price", 0) *)
}.

(** One record [[timestamp, open, high, low, close]] of the OHLC payload;
    the timestamp is in milliseconds since the epoch. *)
Record ohlc_row := {
  r_timestamp : Z;
  r_open : Q;
  r_high : Q;
  r_low : Q;
  r_close : Q
}.

(** The frame built by [on_chart_fetched]: the rows of the payload, the
    [timestamp] column turned into the index and holding [datetime64[ns]]
    values (nanoseconds since the epoch). *)
Definition DataFrame : Type := list ohlc_row.

(** What a JSON reply decodes to, by endpoint. *)
Inductive payload :=
| Markets (data : list coin)
| Ohlc (raw : list ohlc_row).

(** A key of [chart_cache], the tuple [(coin_id, days, date)].  The first
    two components are [None] when [on_fetch_finished] could not parse the
    tag. *)
Abbreviation chart_key :=
  (option string * option Z * date)%type (only parsing).

Record QPixmap := { isNull : bool; pix_data : string }.

(** The icon label of a card and the pixmap it shows. *)
Record QLabel := { pixmap : option QPixmap }.

(** The item in column 0 of a table row. *)
Record QTableWidgetItem := {
  text : string;                  (* the coin name *)
  user_role : string;             (* Qt.UserRole: the coin id *)
  user_role1 : string             (* Qt.UserRole + 1: the symbol *)
}.

#[global] Instance QTableWidgetItem_eq_dec : EqDecision QTableWidgetItem.
Proof. solve_decision. Defined.

(** What the libraries outside the core do during one reaction.
    [sorted rows] is the order in which Qt leaves [rows] when it sorts them
    by the sort indicator that the header has at that moment
    ([setSortingEnabled(True)], a click on a header section).
    [plot_error] is [Some msg] when [mpf.plot] raises an exception whose
    text is [msg], and [None] when it returns. *)
Record world := {
  sorted : list QTableWidgetItem → list QTableWidgetItem;
  plot_error : option string
}.

(** The rows as the view shows them after a sort: Qt only reorders, so an
    answer of [sorted] that is no reordering of the rows is not taken. *)
Definition sort_rows (w : world) (rows : list QTableWidgetItem)
  : list QTableWidgetItem :=
  let shown := sorted w rows in
  if bool_decide (shown ≡ₚ rows) then shown else rows.

Inductive pyval := PStr (s : string) | PInt (z : Z).

(** The text of a message box: a literal, or the message of an exception
    raised inside pandas, whose wording is not modelled. *)
Inductive box_text := Text (s : string) | OutOfBoundsDatetime.

(** The entries of the chart-range dropdown. *)
Inductive chart_range := Days7 | Days30 | Days90 | Days365.

(** [int(self.range_dropdown.currentText())]. *)
Definition range_days (r : chart_range) : Z :=
  match r with Days7 => 7 | Days30 => 30 | Days90 => 90 | Days365 => 365 end.

(** ** The worker threads *)

Inductive signal :=
| finished (data : payload) (tag : string)
| error (msg : string).

(** What [requests.get] followed by [raise_for_status] and [json] comes to:
    an exception with its message, or the decoded payload. *)
Inductive response :=
| Raised (msg : string)
| Json (data : payload).

Module FetchThread.

Record t := { url : string; params : list (string * pyval); tag : string }.

Definition run (self : t) (r : response) : signal :=
  match r with
  | Json data => finished data (tag self)
  | Raised msg => error msg
  end.

End FetchThread.

(** What the icon transport answers for a URL: an exception, or bytes that
    [QPixmap.loadFromData] does or does not decode. *)
Inductive icon_reply :=
| IconError
| IconBytes (content : string) (decodes : bool).

Module IconFetcher.

Definition falsy (s : string) : bool := bool_decide (s = "").

(** One iteration of the loop of [run]: the [icon_loaded] signals it
    emits. *)
Definition fetch_one (net : string → icon_reply) (c : coin)
  : list (string * QPixmap) :=
  match coin_image c with
  | None => []
  | Some u =>
      if falsy (coin_id c) || falsy u then []
      else match net u with
           | IconError => []
           | IconBytes content ok =>
               [ (coin_id c,
                  {| isNull := negb ok;
                     pix_data := if ok then content else "" |}) ]
           end
  end.

(** [run]: the [icon_loaded] signals emitted, in order. *)
Definition run (coins : list coin) (net : string → icon_reply)
  : list (string * QPixmap) :=
  flat_map (fetch_one net) coins.

End IconFetcher.

Inductive worker :=
| Fetch (th : FetchThread.t)
| Icons (coins : list coin).

(** An entry of [self.threads]. *)
Record QThread := { job : worker; isRunning : bool }.

(** ** The foreground object *)

Module CryptoTracker.

(** A call of [draw_candlestick]: the frame, the coin name and the range
    passed to it.  The name and the range are [None] where the source
    passes Python's [None]. *)
Definition drawing : Type := DataFrame * option string * option Z.

Record t := {
  chart_cache : gmap chart_key DataFrame;
  icon_cache : gmap string QPixmap;
  card_icon_labels : gmap string QLabel;
  threads : list QThread;
  table : list QTableWidgetItem;     (* column 0, one item per row *)
  range_dropdown : chart_range;
  timer_interval : Z;                (* self.timer.interval(), in ms *)
  status_label : string;
  message_boxes : list (string * box_text);   (* QMessageBox.critical *)
  canvas : list drawing                       (* draw_candlestick calls *)
}.

(** *** Field updates *)

Definition set_chart_cache (c : gmap chart_key DataFrame) (self : t) : t :=
  {| chart_cache := c; icon_cache := icon_cache self;
     card_icon_labels := card_icon_labels self; threads := threads self;
     table := table self; range_dropdown := range_dropdown self;
     timer_interval := timer_interval self;
     status_label := status_label self;
     message_boxes := message_boxes self; canvas := canvas self |}.

Definition set_icons (ic : gmap string QPixmap) (lb : gmap string QLabel)
    (self : t) : t :=
  {| chart_cache := chart_cache self; icon_cache := ic;
     card_icon_labels := lb; threads := threads self;
     table := table self; range_dropdown := range_dropdown self;
     timer_interval := timer_interval self;
     status_label := status_label self;
     message_boxes := message_boxes self; canvas := canvas self |}.

Definition set_threads (ths : list QThread) (self : t) : t :=
  {| chart_cache := chart_cache self; icon_cache := icon_cache self;
     card_icon_labels := card_icon_labels self; threads := ths;
     table := table self; range_dropdown := range_dropdown self;
     timer_interval := timer_interval self;
     status_label := status_label self;
     message_boxes := message_boxes self; canvas := canvas self |}.

Definition set_table (rows : list QTableWidgetItem) (self : t) : t :=
  {| chart_cache := chart_cache self; icon_cache := icon_cache self;
     card_icon_labels := card_icon_labels self; threads := threads self;
     table := rows; range_dropdown := range_dropdown self;
     timer_interval := timer_interval self;
     status_label := status_label self;
     message_boxes := message_boxes self; canvas := canvas self |}.

Definition set_range (r : chart_range) (self : t) : t :=
  {| chart_cache := chart_cache self; icon_cache := icon_cache self;
     card_icon_labels := card_icon_labels self; threads := threads self;
     table := table self; range_dropdown := r;
     timer_interval := timer_interval self;
     status_label := status_label self;
     message_boxes := message_boxes self; canvas := canvas self |}.

Definition set_interval (ms : Z) (self : t) : t :=
  {| chart_cache := chart_cache self; icon_cache := icon_cache self;
     card_icon_labels := card_icon_labels self; threads := threads self;
     table := table self; range_dropdown := range_dropdown self;
     timer_interval := ms;
     status_label := status_label self;
     message_boxes := message_boxes self; canvas := canvas self |}.

(** [self.status_label.setText(s)]. *)
Definition setText (s : string) (self : t) : t :=
  {| chart_cache := chart_cache self; icon_cache := icon_cache self;
     card_icon_labels := card_icon_labels self; threads := threads self;
     table := table self; range_dropdown := range_dropdown self;
     timer_interval := timer_interval self;
     status_label := s;
     message_boxes := message_boxes self; canvas := canvas self |}.

(** [QMessageBox.critical(self, title, body)]. *)
Definition critical (title : string) (body : box_text) (self : t) : t :=
  {| chart_cache := chart_cache self; icon_cache := icon_cache self;
     card_icon_labels := card_icon_labels self; threads := threads self;
     table := table self; range_dropdown := range_dropdown self;
     timer_interval := timer_interval self;
     status_label := status_label self;
     message_boxes := message_boxes self ++ [(title, body)];
     canvas := canvas self |}.

(** [draw_candlestick]: the plot itself belongs to the charting library;
    the core's part is the call and its three arguments. *)
Definition draw_candlestick (df : DataFrame) (coin_name : option string)
    (days : option Z) (self : t) : t :=
  {| chart_cache := chart_cache self; icon_cache := icon_cache self;
     card_icon_labels := card_icon_labels self; threads := threads self;
     table := table self; range_dropdown := range_dropdown self;
     timer_interval := timer_interval self;
     status_label := status_label self;
     message_boxes := message_boxes self;
     canvas := canvas self ++ [(df, coin_name, days)] |}.

(** [th.start(); self.threads.append(th)]. *)
Definition start (w : worker) (self : t) : t :=
  set_threads (threads self ++ [{| job := w; isRunning := true |}]) self.

(** The object as [__init__] leaves it before the first [load_data]. *)
Definition init : t :=
  {| chart_cache := ∅; icon_cache := ∅; card_icon_labels := ∅;
     threads := []; table := []; range_dropdown := Days7;
     timer_interval := default 60000 (REFRESH_OPTIONS !! DEFAULT_REFRESH_LABEL);
     status_label := ""; message_boxes := []; canvas := [] |}.

(** *** Refresh interval *)

Definition change_refresh_interval (label : string) (self : t) : t :=
  let interval := default 60000 (REFRESH_OPTIONS !! label) in
  set_interval interval self.

(** *** Markets *)

Definition load_data (self : t) : t :=
  let self := setText "Fetching market data..." self in
  let params :=
    [ ("vs_currency", PStr "usd");
      ("ids", PStr (Py.join "," COINS));
      ("price_change_percentage", PStr "24h,7d") ] in
  let th := {| FetchThread.url := API_URL;
               FetchThread.params := params;
               FetchThread.tag := "markets" |} in
  start (Fetch th) self.

Definition on_fetch_error (msg : string) (self : t) : t :=
  let self := critical "Fetch error" (Text msg) self in
  setText "Fetch error" self.

(** The [name_item] that [populate_table] builds for a record. *)
Definition name_item (c : coin) : QTableWidgetItem :=
  {| text := coin_name c;
     user_role := coin_id c;
     user_role1 := Py.lower (coin_symbol c) |}.

(** [populate_table]: the old contents are cleared and one row is set per
    record, in the order of the payload; [setSortingEnabled(True)] at the
    end has Qt sort the rows by the header's sort indicator. *)
Definition populate_table (w : world) (data : list coin) (self : t) : t :=
  set_table (sort_rows w (map name_item data)) self.

(** The loop of [populate_cards] over the payload: the label of a record is
    registered first, and the price label built next raises [TypeError] on
    a [null] price, which ends the loop.  The result is the label
    dictionary and whether the loop raised. *)
Fixpoint add_cards (data : list coin) (labels : gmap string QLabel)
  : gmap string QLabel * bool :=
  match data with
  | [] => (labels, false)
  | c :: rest =>
      let labels := <[coin_id c := {| pixmap := None |}]> labels in
      match coin_price c with
      | None => (labels, true)
      | Some _ => add_cards rest labels
      end
  end.

(** [populate_cards]: the label dictionary is cleared and refilled, a
    later record with the same id replacing the earlier one.  The second
    component tells whether an exception left the function. *)
Definition populate_cards (data : list coin) (self : t) : t * bool :=
  let '(labels, raised) := add_cards data ∅ in
  (set_icons (icon_cache self) labels self, raised).

(** [not pixmap] holds for a null pixmap.  The pixmap is shown scaled to
    the label; the scaling is Qt's. *)
Definition on_icon_loaded (coin_id : string) (pm : QPixmap) (self : t) : t :=
  if isNull pm then self
  else
    set_icons (<[coin_id := pm]> (icon_cache self))
      (alter (λ _, {| pixmap := Some pm |}) coin_id (card_icon_labels self))
      self.

(** *** Charts *)

(** The tag of a chart request, [f"chart:{coin_id}:{days}"]. *)
Definition chart_tag (coin_id : string) (days : Z) : string :=
  "chart:" +:+ coin_id +:+ ":" +:+ Py.str_of_int days.

Definition start_chart_fetch (today : date) (coin_id coin_name : string)
    (days : Z) (self : t) : t :=
  let date_tag := today in
  let key : chart_key := (Some coin_id, Some days, date_tag) in
  match chart_cache self !! key with
  | Some df => draw_candlestick df (Some coin_name) (Some days) self
  | None =>
      let url := MARKET_CHART_URL coin_id in
      let params := [ ("vs_currency", PStr "usd"); ("days", PInt days) ] in
      let tag := chart_tag coin_id days in
      let th := {| FetchThread.url := url;
                   FetchThread.params := params;
                   FetchThread.tag := tag |} in
      let self := start (Fetch th) self in
      setText ("Fetching " +:+ coin_name +:+ " " +:+ Py.str_of_int days
               +:+ "d chart...") self
  end.

(** The thread object that [start_chart_fetch] builds on a miss. *)
Definition chart_thread (coin_id : string) (days : Z) : FetchThread.t :=
  {| FetchThread.url := MARKET_CHART_URL coin_id;
     FetchThread.params := [("vs_currency", PStr "usd"); ("days", PInt days)];
     FetchThread.tag := chart_tag coin_id days |}.

Definition on_table_cell_clicked (today : date) (row col : nat) (self : t)
  : t :=
  match table self !! row with
  | None => self
  | Some item =>
      let coin_id := user_role item in
      let coin_name := text item in
      let days := range_days (range_dropdown self) in
      start_chart_fetch today coin_id coin_name days self
  end.

(** [pd.to_datetime(.., unit="ms")] yields [datetime64[ns]]: a signed
    64-bit count of nanoseconds, and raises when the value does not fit. *)
Definition datetime64_fits (ms : Z) : bool :=
  bool_decide (- 2 ^ 63 < ms * 1000000 < 2 ^ 63).

Definition timestamps_fit (raw : list ohlc_row) : bool :=
  forallb (λ r, datetime64_fits (r_timestamp r)) raw.

Definition to_datetime (r : ohlc_row) : ohlc_row :=
  {| r_timestamp := r_timestamp r * 1000000;
     r_open := r_open r; r_high := r_high r;
     r_low := r_low r; r_close := r_close r |}.

(** The loop of [on_chart_fetched] over the rows of the table: the text of
    the first item whose stored id equals [coin_id], else [coin_id]. *)
Fixpoint name_in_table (rows : list QTableWidgetItem)
    (coin_id : option string) : option string :=
  match rows with
  | [] => coin_id
  | it :: rest =>
      if bool_decide (Some (user_role it) = coin_id) then Some (text it)
      else name_in_table rest coin_id
  end.

(** Everything is inside one [try]: the series is cached before
    [draw_candlestick] is called, and when [mpf.plot] raises there the
    handler shows the exception and the status text is not set. *)
Definition on_chart_fetched (today : date) (w : world) (raw : list ohlc_row)
    (coin_id : option string) (days : option Z) (self : t) : t :=
  match raw with
  | [] => critical "Chart error" (Text "No OHLC data returned") self
  | _ :: _ =>
      if timestamps_fit raw then
        let df := map to_datetime raw in
        let key : chart_key := (coin_id, days, today) in
        let self := set_chart_cache (<[key := df]> (chart_cache self)) self in
        let coin_name := name_in_table (table self) coin_id in
        let self := draw_candlestick df coin_name days self in
        match plot_error w with
        | Some msg => critical "Chart error" (Text msg) self
        | None =>
            setText ("Showing chart for " +:+ Py.fmt_str coin_name) self
        end
      else critical "Chart error" OutOfBoundsDatetime self
  end.

(** [tag.split(":", 2)] unpacked into three names and [int(days_s)], any
    exception giving [(None, None)]. *)
Definition parse_tag (tag : string) : option string * option Z :=
  match Py.split_colon 2 tag with
  | [_; cid; days_s] =>
      match Py.int_of_str days_s with
      | Some days => (Some cid, Some days)
      | None => (None, None)
      end
  | _ => (None, None)
  end.

(** The slot of [FetchThread.finished].  [None]: the payload does not have
    the shape of the endpoint that the tag names; the provider's interface
    rules that out and nothing is modelled there.  When [populate_cards]
    raises, the exception leaves the slot: what was done stays done and the
    rest of the branch does not run. *)
Definition on_fetch_finished (today : date) (w : world) (data : payload)
    (tag : string) (self : t) : option t :=
  if bool_decide (tag = "markets") then
    match data with
    | Markets data =>
        let self := populate_table w data self in
        let '(self, raised) := populate_cards data self in
        if raised then Some self
        else
          let self := start (Icons data) self in
          Some (setText ("Market data updated ("
                         +:+ Py.str_of_int (Z.of_nat (length data))
                         +:+ " coins)") self)
    | Ohlc _ => None
    end
  else if Py.startswith "chart:" tag then
    let '(cid, days) := parse_tag tag in
    match data with
    | Ohlc raw => Some (on_chart_fetched today w raw cid days self)
    | Markets _ => None
    end
  else Some self.

(** *** Cards and their click handlers *)




(** The loop of a card's click handler over the rows, from row [r] on: the
    first row whose item stores [cid_local]. *)
Fixpoint row_of (rows : list QTableWidgetItem) (cid_local : string) (r : nat)
  : option nat :=
  match rows with
  | [] => None
  | it :: rest =>
      if bool_decide (user_role it = cid_local) then Some r
      else row_of rest cid_local (S r)
  end.

(** The [handler] that [make_click_handler cid_local cname_local] returns:
    the new state and the row passed to [selectRow], if any. *)
Definition card_pressed (today : date) (cid_local cname_local : string)
    (self : t) : t * option nat :=
  match row_of (table self) cid_local 0 with
  | Some r =>
      (start_chart_fetch today cid_local cname_local
         (range_days (range_dropdown self)) self,
       Some r)
  | None => (self, None)
  end.

(** *** Search filter *)

(** [filter_table]: the hidden flag that [setRowHidden] receives for each
    row, in row order.  [search_text] is the text of the search bar; names
    and search texts are taken to be ASCII, as [Py.lower] is. *)
Definition filter_table (search_text : string) (self : t) : list bool :=
  let txt := Py.lower search_text in
  map (λ it,
         let name := Py.lower (text it) in
         let symbol := user_role1 it in
         let visible := Py.contains txt name || Py.contains txt symbol in
         negb visible)
      (table self).

(** *** Theme *)

(** The theme and what [toggle_theme] sets from it: the stylesheet file
    passed to [qt_material.apply_stylesheet] and the face colour of the
    figure. *)
Record look := { theme : string; stylesheet : string; facecolor : string }.

Definition toggle_theme (l : look) : look :=
  let theme' := if bool_decide (theme l = "dark") then "light" else "dark" in
  {| theme := theme';
     stylesheet := if bool_decide (theme' = "dark") then "dark_teal.xml"
                   else "light_blue.xml";
     facecolor := if bool_decide (theme' = "dark") then "#121212"
                  else "white" |}.

(** The face colour that [draw_candlestick] gives the figure. *)
Definition chart_facecolor (theme : string) : string :=
  if bool_decide (theme = "dark") then "#121212" else "white".

(** *** The event loop *)

(** What the foreground thread reacts to.  Each reaction runs to its end
    before the next one starts; the nested event loop of a modal message
    box, which could let another reaction in, is left out.  So are the
    reactions that touch nothing of the state kept here: the search filter
    (row visibility only), the theme and the view toggle.

    An [IconFetcher] emits its signals one by one while other reactions
    take place; the [Icons] job of a running thread holds the records it
    has yet to go through.  A card can be pressed with whatever id and
    name it was built with. *)
Inductive event :=
| Timeout                               (* timer.timeout, "Refresh Now" *)
| CellClicked (row col : nat)
| RangeSelected (r : chart_range)
| IntervalSelected (label : string)
| FetchReturned (i : nat) (r : response)     (* threads[i].run() ended *)
| IconsReturned (i : nat) (net : string → icon_reply)
                 (* threads[i] went through the records left and ended *)
| IconFetched (i : nat) (reply : icon_reply)
                 (* threads[i] went through its next record *)
| CardPressed (cid_local cname_local : string)
| HeaderClicked.                        (* a header section: Qt sorts *)

Definition mark_finished (i : nat) (self : t) : t :=
  set_threads
    (alter (λ th, {| job := job th; isRunning := false |}) i (threads self))
    self.

(** Thread [i] has gone through one more record and [rest] remain. *)
Definition advance (i : nat) (rest : list coin) (self : t) : t :=
  set_threads
    (alter (λ th, {| job := Icons rest; isRunning := isRunning th |}) i
       (threads self))
    self.

Definition deliver (today : date) (w : world) (s : signal) (self : t)
  : option t :=
  match s with
  | finished data tag => on_fetch_finished today w data tag self
  | error msg => Some (on_fetch_error msg self)
  end.

(** One reaction, on the UTC day [today] and with the libraries behaving as
    [w].  [None]: the event cannot occur in [self] (no such running thread)
    or is not modelled. *)
Definition step (today : date) (w : world) (ev : event) (self : t)
  : option t :=
  match ev with
  | Timeout => Some (load_data self)
  | CellClicked row col => Some (on_table_cell_clicked today row col self)
  | RangeSelected r => Some (set_range r self)
  | IntervalSelected label => Some (change_refresh_interval label self)
  | FetchReturned i r =>
      match threads self !! i with
      | Some {| job := Fetch th; isRunning := true |} =>
          deliver today w (FetchThread.run th r) (mark_finished i self)
      | _ => None
      end
  | IconsReturned i net =>
      match threads self !! i with
      | Some {| job := Icons coins; isRunning := true |} =>
          Some (foldl (λ s e, on_icon_loaded e.1 e.2 s)
                  (mark_finished i self) (IconFetcher.run coins net))
      | _ => None
      end
  | IconFetched i reply =>
      match threads self !! i with
      | Some {| job := Icons (c :: rest); isRunning := true |} =>
          Some (foldl (λ s e, on_icon_loaded e.1 e.2 s)
                  (advance i rest self)
                  (IconFetcher.fetch_one (λ _, reply) c))
      | _ => None
      end
  | CardPressed cid_local cname_local =>
      Some (card_pressed today cid_local cname_local self).1
  | HeaderClicked => Some (set_table (sort_rows w (table self)) self)
  end.

Fixpoint run_loop (evs : list (date * world * event)) (self : t) : option t :=
  match evs with
  | [] => Some self
  | (today, w, ev) :: rest =>
      match step today w ev self with
      | Some self' => run_loop rest self'
      | None => None
      end
  end.

(** The running [FetchThread]s that carry [tag]. *)
Definition in_flight (tag : string) (self : t) : list FetchThread.t :=
  omap (λ th, match th with
              | {| job := Fetch f; isRunning := true |} =>
                  if bool_decide (FetchThread.tag f = tag) then Some f
                  else None
              | _ => None
              end) (threads self).

End CryptoTracker.

(** ** Sample data for the concrete runs below *)

Module Sample.

Import CryptoTracker.

Definition btc : coin :=
  {| coin_id := "bitcoin"; coin_name := "Bitcoin"; coin_symbol := "btc";
     coin_image := Some "https://img.example/bitcoin.png";
     coin_price := Some (97000 # 1) |}.

Definition eth : coin :=
  {| coin_id := "ethereum"; coin_name := "Ethereum"; coin_symbol := "eth";
     coin_image := Some "https://img.example/ethereum.png";
     coin_price := Some (3600 # 1) |}.

Definition sol : coin :=
  {| coin_id := "solana"; coin_name := "Solana"; coin_symbol := "sol";
     coin_image := Some "https://img.example/solana.png";
     coin_price := Some (240 # 1) |}.



(** A record for which the provider sends no price. *)
Definition delisted : coin :=
  {| coin_id := "delisted"; coin_name := "Delisted"; coin_symbol := "dl";
     coin_image := Some "https://img.example/delisted.png";
     coin_price := None |}.

Definition candle (ms : Z) : ohlc_row :=
  {| r_timestamp := ms; r_open := 1 # 1; r_high := 2 # 1;
     r_low := 1 # 2; r_close := 3 # 2 |}.

(** Two consecutive UTC days. *)
Definition day1 : date := 739194.
Definition day2 : date := 739195.

(** The libraries on a quiet day: the header leaves the rows as they are
    set and every plot succeeds. *)
Definition qt : world := {| sorted := λ rows, rows; plot_error := None |}.

(** The header sorts the rows into the reverse order. *)
Definition qt_reversing : world :=
  {| sorted := λ rows, rev rows; plot_error := None |}.

(** [mpf.plot] raises. *)
Definition qt_plot_fails : world :=
  {| sorted := λ rows, rows; plot_error := Some "no plot today" |}.

(** The state reached from [init] by a list of events, or [init] itself
    when some event of the list cannot occur. *)
Definition after (evs : list (date * world * event)) : t :=
  default init (run_loop evs init).

(** The first refresh and its answer. *)
Definition snapshot (data : list coin) : list (date * world * event) :=
  [ (day1, qt, Timeout); (day1, qt, FetchReturned 0 (Json (Markets data))) ].

(** The table filled from a snapshot of two coins. *)
Definition loaded : t := after (snapshot [btc; eth]).

(** Two four-hour candles. *)
Definition series : list ohlc_row :=
  [ candle 1700000000000; candle 1700014400000 ].

(** The same candles out of order, one of them twice. *)
Definition shuffled : list ohlc_row :=
  [ candle 1700014400000; candle 1700000000000; candle 1700014400000 ].

(** [loaded], then a click on the bitcoin row and the answer to it, all on
    [day1]. *)
Definition charted : t :=
  after (snapshot [btc; eth]
         ++ [ (day1, qt, CellClicked 0 0);
              (day1, qt, FetchReturned 2 (Json (Ohlc series))) ]).

(** A transport on which only the ethereum icon fails. *)
Definition net (u : string) : icon_reply :=
  if bool_decide (u = "https://img.example/ethereum.png") then IconError
  else IconBytes u true.

End Sample.

(** * Properties *)

Import CryptoTracker.

(** ** Tags: what [start_chart_fetch] writes, [on_fetch_finished] reads *)

Section Tags.

Lemma int_of_str_of_int (z : Z) : Py.int_of_str (Py.str_of_int z) = Some z.
Proof.
  unfold Py.int_of_str, Py.str_of_int.
  rewrite NilZero.isi.
  - simpl. f_equal. apply DecimalZ.of_to.
  - destruct z; simpl; try discriminate.
    intros [= H]. by apply DecimalPos.Unsigned.to_uint_nonnil in H.
  - destruct z; simpl; try discriminate.
    intros [= H]. by apply DecimalPos.Unsigned.to_uint_nonnil in H.
Qed.

Lemma partition_colon_app (a rest : string) :
  Py.colon_free a = true →
  Py.partition_colon (a +:+ ":" +:+ rest) = Some (a, rest).
Proof.
  unfold Py.colon_free. rewrite bool_decide_eq_true.
  induction a as [|c a IH]; simpl; [done|].
  destruct (Ascii.eqb c ":"); [done|].
  destruct (Py.partition_colon a) as [[]|] eqn:E; [done|].
  intros _. by rewrite IH.
Qed.

Lemma parse_chart_tag (coin_id : string) (days : Z) :
  Py.colon_free coin_id = true →
  parse_tag (chart_tag coin_id days) = (Some coin_id, Some days).
Proof.
  intros Hc. unfold parse_tag, chart_tag.
  change (Py.split_colon 2 ("chart:" +:+ coin_id +:+ ":" +:+ Py.str_of_int days))
    with ("chart" :: Py.split_colon 1 (coin_id +:+ ":" +:+ Py.str_of_int days)).
  simpl Py.split_colon. rewrite partition_colon_app by done.
  by rewrite int_of_str_of_int.
Qed.

Lemma chart_tag_not_markets (coin_id : string) (days : Z) :
  chart_tag coin_id days ≠ "markets".
Proof. discriminate. Qed.

Lemma chart_tag_startswith (coin_id : string) (days : Z) :
  Py.startswith "chart:" (chart_tag coin_id days) = true.
Proof. reflexivity. Qed.

End Tags.

(** ** Refresh interval *)

Section RefreshInterval.

Lemma refresh_options_unknown (label : string) :
  label ∉ ["30s"; "1m"; "5m"; "10m"] → REFRESH_OPTIONS !! label = None.
Proof.
  intros H. unfold REFRESH_OPTIONS.
  rewrite !lookup_insert_ne, lookup_empty; [done|..];
    intros <-; apply H; set_solver.
Qed.

(** C10. A label outside [{30s, 1m, 5m, 10m}] sets the timer to 60000 ms,
    and each of the four labels sets it to the value advertised for it;
    [change_refresh_interval] is total, so no label makes it fail. *)
Theorem change_refresh_interval_spec (self : t) :
  (∀ label, label ∉ ["30s"; "1m"; "5m"; "10m"] →
     timer_interval (change_refresh_interval label self) = 60000)
  ∧ timer_interval (change_refresh_interval "30s" self) = 30000
  ∧ timer_interval (change_refresh_interval "1m" self) = 60000
  ∧ timer_interval (change_refresh_interval "5m" self) = 300000
  ∧ timer_interval (change_refresh_interval "10m" self) = 600000.
Proof.
  split; [|by repeat split].
  intros label H. unfold change_refresh_interval. simpl.
  by rewrite refresh_options_unknown.
Qed.

End RefreshInterval.

Lemma change_refresh_interval_witness :
  ("2h" ∉ ["30s"; "1m"; "5m"; "10m"])
  ∧ timer_interval (change_refresh_interval "2h" init) = 60000.
Proof.
  assert (H : "2h" ∉ ["30s"; "1m"; "5m"; "10m"]).
  { intros Hin. repeat (apply elem_of_cons in Hin as [Hin|Hin]; [discriminate|]).
    by apply elem_of_nil in Hin. }
  split; [exact H|].
  exact (proj1 (change_refresh_interval_spec init) "2h" H).
Defined.

(** ** Chart requests and the chart cache *)

Section ChartCache.

Implicit Types (w : world) (self : t) (today d : date) (coin_id coin_name : string)
  (days : Z) (raw : list ohlc_row) (df : DataFrame).

Lemma start_chart_fetch_hit today coin_id coin_name days df self :
  chart_cache self !! (Some coin_id, Some days, today) = Some df →
  start_chart_fetch today coin_id coin_name days self
  = draw_candlestick df (Some coin_name) (Some days) self.
Proof. intros H. unfold start_chart_fetch. cbv zeta. by rewrite H. Qed.

Lemma start_chart_fetch_miss today coin_id coin_name days self :
  chart_cache self !! (Some coin_id, Some days, today) = None →
  start_chart_fetch today coin_id coin_name days self
  = setText ("Fetching " +:+ coin_name +:+ " " +:+ Py.str_of_int days
             +:+ "d chart...")
      (start (Fetch (chart_thread coin_id days)) self).
Proof. intros H. unfold start_chart_fetch. cbv zeta. by rewrite H. Qed.

Lemma on_chart_fetched_stores today (w : world) raw (cid : option string)
    (range : option Z) self :
  raw ≠ [] → timestamps_fit raw = true →
  on_chart_fetched today w raw cid range self
  = let df := map to_datetime raw in
    let self1 :=
      set_chart_cache (<[(cid, range, today) := df]> (chart_cache self)) self in
    let coin_name := name_in_table (table self) cid in
    let drawn := draw_candlestick df coin_name range self1 in
    match plot_error w with
    | Some msg => critical "Chart error" (Text msg) drawn
    | None => setText ("Showing chart for " +:+ Py.fmt_str coin_name) drawn
    end.
Proof.
  intros Hne Hfit. unfold on_chart_fetched.
  destruct raw; [done|]. by rewrite Hfit.
Qed.

Lemma in_flight_start tag (job : worker) self :
  in_flight tag (start job self)
  = in_flight tag self
    ++ match job with
       | Fetch f => if bool_decide (FetchThread.tag f = tag) then [f] else []
       | Icons _ => []
       end.
Proof.
  unfold in_flight, start. simpl. rewrite omap_app. f_equal.
  destruct job; simpl; [|done]. by case_bool_decide.
Qed.

(** C3. When the chart cache holds a series under (coin id, range, today),
    a chart request for that coin and range draws the cached series at once
    and starts no thread: the thread list, the cache and the message boxes
    are as before, and the canvas receives exactly that one drawing. *)
Theorem cache_hit_renders_without_fetch today coin_id coin_name days df self :
  chart_cache self !! (Some coin_id, Some days, today) = Some df →
  let self' := start_chart_fetch today coin_id coin_name days self in
  threads self' = threads self
  ∧ canvas self' = canvas self ++ [(df, Some coin_name, Some days)]
  ∧ chart_cache self' = chart_cache self
  ∧ message_boxes self' = message_boxes self.
Proof. intros H. simpl. by rewrite (start_chart_fetch_hit _ _ _ _ df). Qed.

(** C4. A series stored by the completion handler on day [d1] does not
    serve a request made on another day [d2]: the lookup under [d2] sees
    what it saw before the write, so with nothing cached under [d2] the
    request starts a fetch and draws nothing, while the entry of [d1] stays
    in the cache, no step removing it. *)
Theorem day_rollover_is_a_miss d1 d2 (w : world) coin_id coin_name days raw
    self :
  d1 ≠ d2 →
  raw ≠ [] → timestamps_fit raw = true →
  chart_cache self !! (Some coin_id, Some days, d2) = None →
  let stored := on_chart_fetched d1 w raw (Some coin_id) (Some days) self in
  let self' := start_chart_fetch d2 coin_id coin_name days stored in
  chart_cache stored !! (Some coin_id, Some days, d1) = Some (map to_datetime raw)
  ∧ chart_cache stored !! (Some coin_id, Some days, d2) = None
  ∧ threads self'
    = threads stored
      ++ [{| job := Fetch (chart_thread coin_id days); isRunning := true |}]
  ∧ canvas self' = canvas stored
  ∧ chart_cache self' !! (Some coin_id, Some days, d1) = Some (map to_datetime raw)
  ∧ chart_cache self' !! (Some coin_id, Some days, d2) = None.
Proof.
  intros Hd Hne Hfit Hmiss. simpl.
  rewrite on_chart_fetched_stores by done. simpl.
  assert (Hmiss' :
    <[(Some coin_id, Some days, d1) := map to_datetime raw]> (chart_cache self)
      !! (Some coin_id, Some days, d2) = None).
  { rewrite lookup_insert_ne; [done|]. intros [= E]. by apply Hd. }
  destruct (plot_error w) as [msg|];
    (rewrite start_chart_fetch_miss by exact Hmiss'; simpl;
     by rewrite lookup_insert_eq, Hmiss').
Qed.

End ChartCache.

Lemma cache_hit_renders_without_fetch_witness :
  chart_cache Sample.charted !! (Some "bitcoin", Some 7, Sample.day1)
  = Some (map to_datetime Sample.series)
  ∧ threads (start_chart_fetch Sample.day1 "bitcoin" "Bitcoin" 7 Sample.charted)
    = threads Sample.charted.
Proof.
  assert (H : chart_cache Sample.charted !! (Some "bitcoin", Some 7, Sample.day1)
              = Some (map to_datetime Sample.series))
    by (vm_compute; reflexivity).
  split; [exact H|].
  exact (proj1 (cache_hit_renders_without_fetch
                  Sample.day1 "bitcoin" "Bitcoin" 7 _ Sample.charted H)).
Defined.

Lemma day_rollover_is_a_miss_witness :
  let stored :=
    on_chart_fetched Sample.day1 Sample.qt Sample.series (Some "bitcoin")
      (Some 7) Sample.loaded in
  chart_cache stored !! (Some "bitcoin", Some 7, Sample.day1)
  = Some (map to_datetime Sample.series)
  ∧ chart_cache stored !! (Some "bitcoin", Some 7, Sample.day2) = None.
Proof.
  assert (Hd : Sample.day1 ≠ Sample.day2) by discriminate.
  assert (Hne : Sample.series ≠ []) by discriminate.
  assert (Hfit : timestamps_fit Sample.series = true) by reflexivity.
  assert (Hmiss : chart_cache Sample.loaded
                    !! (Some "bitcoin", Some 7, Sample.day2) = None)
    by (vm_compute; reflexivity).
  pose proof (day_rollover_is_a_miss Sample.day1 Sample.day2 Sample.qt
                "bitcoin" "Bitcoin" 7 Sample.series Sample.loaded
                Hd Hne Hfit Hmiss)
    as (H1 & H2 & _).
  exact (conj H1 H2).
Defined.

(** C1 fails on the code: two clicks on the same row on the same day, with
    no answer in between, leave two running threads with the same tag, and
    two refreshes leave two running markets threads. *)
Lemma duplicate_requests_run_twice :
  length (in_flight (chart_tag "bitcoin" 7)
            (Sample.after (Sample.snapshot [Sample.btc; Sample.eth]
                           ++ [ (Sample.day1, Sample.qt, CellClicked 0 0);
                                (Sample.day1, Sample.qt, CellClicked 0 0) ]))) = 2%nat
  ∧ length (in_flight "markets"
              (Sample.after [ (Sample.day1, Sample.qt, Timeout);
                              (Sample.day1, Sample.qt, Timeout) ])) = 2%nat.
Proof. split; vm_compute; reflexivity. Qed.

(** ** Completion of a chart fetch *)

Section Completion.

Implicit Types (w : world) (self : t) (today : date)
  (coin_id coin_name : string) (days : Z) (raw : list ohlc_row) (i : nat).

Lemma on_fetch_finished_chart today w raw coin_id days self :
  on_fetch_finished today w (Ohlc raw) (chart_tag coin_id days) self
  = Some (on_chart_fetched today w raw
            (parse_tag (chart_tag coin_id days)).1
            (parse_tag (chart_tag coin_id days)).2 self).
Proof.
  unfold on_fetch_finished.
  rewrite bool_decide_eq_false_2 by apply chart_tag_not_markets.
  rewrite chart_tag_startswith.
  by destruct (parse_tag (chart_tag coin_id days)).
Qed.

Lemma step_fetch_returned today w i th r self :
  threads self !! i = Some {| job := Fetch th; isRunning := true |} →
  step today w (FetchReturned i r) self
  = deliver today w (FetchThread.run th r) (mark_finished i self).
Proof. intros H. simpl. by rewrite H. Qed.

Lemma icons_keep_chart_cache (l : list (string * QPixmap)) self :
  chart_cache (foldl (λ s e, on_icon_loaded e.1 e.2 s) self l)
  = chart_cache self.
Proof.
  revert self. induction l as [|[cid pm] l IH]; intros self; [done|].
  simpl. rewrite IH. unfold on_icon_loaded. by destruct (isNull pm).
Qed.

Lemma start_chart_fetch_keeps_cache today coin_id coin_name days self :
  chart_cache (start_chart_fetch today coin_id coin_name days self)
  = chart_cache self.
Proof.
  unfold start_chart_fetch. cbv zeta. by destruct (chart_cache self !! _).
Qed.

Lemma card_pressed_keeps_cache today (cid cname : string) self :
  chart_cache (card_pressed today cid cname self).1 = chart_cache self.
Proof.
  unfold card_pressed. destruct (row_of _ _ _); [|done].
  apply start_chart_fetch_keeps_cache.
Qed.

(** A markets answer changes the table, the labels, the threads and the
    status text at most. *)
Lemma markets_answer_frame today w (data : list coin) self self' :
  on_fetch_finished today w (Markets data) "markets" self = Some self' →
  chart_cache self' = chart_cache self
  ∧ icon_cache self' = icon_cache self
  ∧ canvas self' = canvas self
  ∧ message_boxes self' = message_boxes self
  ∧ table self' = sort_rows w (map name_item data)
  ∧ card_icon_labels self' = (add_cards data ∅).1
  ∧ ((add_cards data ∅).2 = true
     ∧ threads self' = threads self ∧ status_label self' = status_label self
     ∨ (add_cards data ∅).2 = false
       ∧ threads self'
         = threads self ++ [{| job := Icons data; isRunning := true |}]).
Proof.
  unfold on_fetch_finished, populate_cards. simpl.
  destruct (add_cards data ∅) as [labels [|]]; intros [= <-]; simpl.
  - repeat split; try done. by left.
  - repeat split; try done. by right.
Qed.

Lemma strictly_ascending_scaled (l : list Z) :
  StronglySorted Z.lt (map (λ z, z * 1000000) l) ↔ StronglySorted Z.lt l.
Proof.
  induction l as [|x l IH]; simpl.
  - split; constructor.
  - split; intros H; apply StronglySorted_inv in H as [Hs Hall];
      constructor; try (by apply IH).
    + rewrite List.Forall_forall in *. intros y Hy.
      assert (x * 1000000 < y * 1000000); [|lia].
      apply Hall, in_map_iff. eauto.
    + rewrite List.Forall_forall in *. intros y [z [<- Hz]]%in_map_iff.
      specialize (Hall z Hz). lia.
Qed.

Lemma timestamps_to_datetime raw :
  map r_timestamp (map to_datetime raw)
  = map (λ z, z * 1000000) (map r_timestamp raw).
Proof. rewrite !map_map. by apply map_ext. Qed.

(** C2, as the code has it. The chart cache changes only when a fetch
    thread has returned an OHLC payload, and the key then written is the
    pair parsed from that thread's tag together with the UTC day on which
    the completion handler runs. When the thread was started for a coin id
    without a colon and the payload is non-empty with timestamps that fit,
    the write takes place under (coin id, range, day of completion). This
    holds for every reaction of the event loop: timer and refresh button,
    cell click, card press, header sort, range and interval selection,
    answers of fetch threads and signals of icon fetchers, whatever Qt and
    the plotting library do meanwhile. *)
Theorem cache_write_key today w ev self self' :
  step today w ev self = Some self' →
  (chart_cache self' = chart_cache self
   ∨ ∃ i th raw,
       ev = FetchReturned i (Json (Ohlc raw))
       ∧ threads self !! i = Some {| job := Fetch th; isRunning := true |}
       ∧ chart_cache self'
         = <[((parse_tag (FetchThread.tag th)).1,
              (parse_tag (FetchThread.tag th)).2, today)
             := map to_datetime raw]> (chart_cache self))
  ∧ ∀ i th coin_id days raw,
      ev = FetchReturned i (Json (Ohlc raw)) →
      threads self !! i = Some {| job := Fetch th; isRunning := true |} →
      FetchThread.tag th = chart_tag coin_id days →
      Py.colon_free coin_id = true →
      raw ≠ [] → timestamps_fit raw = true →
      chart_cache self'
      = <[(Some coin_id, Some days, today) := map to_datetime raw]>
          (chart_cache self).
Proof.
  intros Hstep. split; cycle 1.
  { intros i th coin_id days raw -> Hth Htag Hcf Hne Hfit.
    rewrite (step_fetch_returned _ _ _ th) in Hstep by done.
    simpl deliver in Hstep.
    rewrite Htag, on_fetch_finished_chart, parse_chart_tag in Hstep by done.
    rewrite on_chart_fetched_stores in Hstep by done.
    injection Hstep as <-. by destruct (plot_error w). }
  revert Hstep.
  destruct ev as [|row col|r|label|i r|i net|i reply|cid cname|];
    cbn [step].
  - intros [= <-]. by left.
  - intros [= <-]. left. unfold on_table_cell_clicked.
    destruct (table self !! row); [|done].
    apply start_chart_fetch_keeps_cache.
  - intros [= <-]. by left.
  - intros [= <-]. by left.
  - destruct (threads self !! i) as [[[th|coins] [|]]|] eqn:Hth; try done.
    destruct r as [msg|[data|raw]]; cbn [FetchThread.run deliver].
    + intros [= <-]. by left.
    + destruct (decide (FetchThread.tag th = "markets")) as [Htag|Htag].
      * rewrite Htag. intros Hm. left.
        by destruct (markets_answer_frame _ _ _ _ _ Hm) as [-> _].
      * unfold on_fetch_finished. rewrite bool_decide_eq_false_2 by done.
        destruct (Py.startswith _ _); [|intros [= <-]; by left].
        by destruct (parse_tag _).
    + unfold on_fetch_finished. case_bool_decide; [done|].
      destruct (Py.startswith _ _); [|intros [= <-]; by left].
      destruct (parse_tag (FetchThread.tag th)) as [cid range] eqn:Hp.
      intros [= <-]. unfold on_chart_fetched.
      destruct raw as [|r0 raw]; [by left|].
      destruct (timestamps_fit (r0 :: raw)); [|by left].
      right. exists i, th, (r0 :: raw).
      split; [done|]. split; [done|]. rewrite Hp.
      by destruct (plot_error w).
  - destruct (threads self !! i) as [[[th|coins] [|]]|] eqn:Hth; try done.
    intros [= <-]. left. by rewrite icons_keep_chart_cache.
  - destruct (threads self !! i) as [[[th|[|c rest]] [|]]|] eqn:Hth;
      try done.
    intros [= <-]. left. by rewrite icons_keep_chart_cache.
  - intros [= <-]. left. apply card_pressed_keeps_cache.
  - intros [= <-]. by left.
Qed.

(** C5, as the code has it. For a non-empty payload whose timestamps fit
    [datetime64[ns]], the series stored and drawn is the payload itself,
    record for record and in the payload's order, with the timestamps
    converted; so it is strictly ascending by timestamp exactly when the
    payload is. *)
Theorem series_keeps_payload_order today w raw (cid : option string)
    (range : option Z) self :
  raw ≠ [] → timestamps_fit raw = true →
  let self' := on_chart_fetched today w raw cid range self in
  chart_cache self' !! (cid, range, today) = Some (map to_datetime raw)
  ∧ canvas self'
    = canvas self
      ++ [(map to_datetime raw, name_in_table (table self) cid, range)]
  ∧ map r_timestamp (map to_datetime raw)
    = map (λ z, z * 1000000) (map r_timestamp raw)
  ∧ (StronglySorted Z.lt (map r_timestamp (map to_datetime raw))
     ↔ StronglySorted Z.lt (map r_timestamp raw)).
Proof.
  intros Hne Hfit. simpl. rewrite on_chart_fetched_stores by done. simpl.
  rewrite timestamps_to_datetime.
  destruct (plot_error w); simpl; rewrite lookup_insert_eq;
    (repeat split; try done; apply strictly_ascending_scaled).
Qed.

(** C6. An empty OHLC payload makes the completion handler raise one
    message box and change nothing else but the running flag of the thread
    that returned: the chart cache and the canvas are as before the request.
    The same request made again on the same day misses the cache again and
    starts a new fetch. *)
Theorem empty_payload_is_reported_not_cached today today' w coin_id coin_name
    days self :
  chart_cache self !! (Some coin_id, Some days, today) = None →
  let requested := start_chart_fetch today coin_id coin_name days self in
  ∃ answered,
    step today' w (FetchReturned (length (threads self)) (Json (Ohlc [])))
      requested = Some answered
    ∧ chart_cache answered = chart_cache self
    ∧ canvas answered = canvas self
    ∧ message_boxes answered
      = message_boxes self ++ [("Chart error", Text "No OHLC data returned")]
    ∧ in_flight (chart_tag coin_id days) answered
      = in_flight (chart_tag coin_id days) self
    ∧ in_flight (chart_tag coin_id days)
        (start_chart_fetch today coin_id coin_name days answered)
      = in_flight (chart_tag coin_id days) self ++ [chart_thread coin_id days].
Proof.
  intros Hmiss. cbv zeta. rewrite start_chart_fetch_miss by done.
  eexists. split.
  - rewrite (step_fetch_returned _ _ _ (chart_thread coin_id days))
      by (simpl; by apply list_lookup_middle).
    simpl deliver. by rewrite on_fetch_finished_chart.
  - simpl.
    assert (Hfl : ∀ tag,
      omap (λ th, match th with
                  | {| job := Fetch f; isRunning := true |} =>
                      if bool_decide (FetchThread.tag f = tag) then Some f
                      else None
                  | _ => None
                  end)
        (alter (λ th, {| job := job th; isRunning := false |})
           (length (threads self))
           (threads self
            ++ [{| job := Fetch (chart_thread coin_id days);
                   isRunning := true |}]))
      = in_flight tag self).
    { intros tag. rewrite alter_app_r_alt by done.
      rewrite Nat.sub_diag. simpl. rewrite omap_app. simpl.
      by rewrite app_nil_r. }
    repeat split; try done.
    + apply Hfl.
    + rewrite start_chart_fetch_miss by done.
      change (in_flight (chart_tag coin_id days) (setText ?s ?x))
        with (in_flight (chart_tag coin_id days) x).
      rewrite in_flight_start. unfold in_flight at 1. simpl threads.
      rewrite Hfl. simpl. by rewrite bool_decide_eq_true_2.
Qed.

(** A slot leaves the threads it finds where they are; it may add one. *)
Lemma deliver_threads today w (s : signal) self self' :
  deliver today w s self = Some self' →
  ∃ more, threads self' = threads self ++ more.
Proof.
  destruct s as [[data|raw] tag|msg]; cbn [deliver].
  - destruct (decide (tag = "markets")) as [->|Htag].
    + intros Hm.
      destruct (markets_answer_frame _ _ _ _ _ Hm)
        as (_ & _ & _ & _ & _ & _ & [(_ & -> & _)|(_ & ->)]).
      * exists []. by rewrite app_nil_r.
      * by eexists.
    + unfold on_fetch_finished. rewrite bool_decide_eq_false_2 by done.
      destruct (Py.startswith _ _); [by destruct (parse_tag _)|].
      intros [= <-]. exists []. by rewrite app_nil_r.
  - unfold on_fetch_finished. case_bool_decide; [done|].
    destruct (Py.startswith _ _);
      [|intros [= <-]; exists []; by rewrite app_nil_r].
    destruct (parse_tag tag) as [cid range]. intros [= <-].
    exists []. rewrite app_nil_r. unfold on_chart_fetched.
    destruct raw as [|r0 raw]; [done|].
    destruct (timestamps_fit (r0 :: raw)); [|done].
    by destruct (plot_error w).
  - intros [= <-]. exists []. by rewrite app_nil_r.
Qed.

(** C1, as the code has it. There is no record of requests in flight: a
    chart request that misses the cache always starts a thread of its own,
    and so does every [load_data], whatever threads already run with the
    same tag; a chart request that hits the cache starts none. Every
    running fetch thread that returns has its own signal handled by the
    slots, and that reaction leaves every other thread as it was, so a
    duplicate delivers its own result in its turn. *)
Theorem every_request_starts_its_own_fetch today coin_id coin_name days self :
  (chart_cache self !! (Some coin_id, Some days, today) = None →
   in_flight (chart_tag coin_id days)
     (start_chart_fetch today coin_id coin_name days self)
   = in_flight (chart_tag coin_id days) self ++ [chart_thread coin_id days])
  ∧ (∀ df, chart_cache self !! (Some coin_id, Some days, today) = Some df →
       threads (start_chart_fetch today coin_id coin_name days self)
       = threads self)
  ∧ length (in_flight "markets" (load_data self))
    = S (length (in_flight "markets" self))
  ∧ ∀ w i th r,
      threads self !! i = Some {| job := Fetch th; isRunning := true |} →
      step today w (FetchReturned i r) self
      = deliver today w (FetchThread.run th r) (mark_finished i self)
      ∧ ∀ self' j other,
          step today w (FetchReturned i r) self = Some self' →
          j ≠ i → threads self !! j = Some other →
          threads self' !! j = Some other.
Proof.
  split; [|split; [|split]].
  - intros Hmiss. rewrite start_chart_fetch_miss by done.
    unfold in_flight at 1. simpl threads.
    change (in_flight (chart_tag coin_id days)
              (start (Fetch (chart_thread coin_id days)) self)
            = in_flight (chart_tag coin_id days) self
              ++ [chart_thread coin_id days]).
    rewrite in_flight_start. simpl. by rewrite bool_decide_eq_true_2.
  - intros df Hhit. by rewrite (start_chart_fetch_hit _ _ _ _ df).
  - unfold load_data. cbv zeta.
    rewrite in_flight_start, bool_decide_eq_true_2 by done.
    rewrite length_app. change (in_flight "markets" (setText _ self))
      with (in_flight "markets" self). simpl. lia.
  - intros w i th r Hth.
    assert (Hstep := step_fetch_returned today w i th r self Hth).
    split; [exact Hstep|].
    intros self' j other Hs Hij Hj. rewrite Hstep in Hs.
    destruct (deliver_threads _ _ _ _ _ Hs) as [more ->].
    apply lookup_app_l_Some. simpl.
    by rewrite list_lookup_alter_ne.
Qed.

End Completion.

Lemma every_request_starts_its_own_fetch_witness :
  let twice :=
    Sample.after (Sample.snapshot [Sample.btc; Sample.eth]
                  ++ [ (Sample.day1, Sample.qt, CellClicked 0 0);
                       (Sample.day1, Sample.qt, CellClicked 0 0) ]) in
  chart_cache Sample.loaded !! (Some "bitcoin", Some 7, Sample.day1) = None
  ∧ in_flight (chart_tag "bitcoin" 7)
      (start_chart_fetch Sample.day1 "bitcoin" "Bitcoin" 7 Sample.loaded)
    = in_flight (chart_tag "bitcoin" 7) Sample.loaded
      ++ [chart_thread "bitcoin" 7]
  ∧ threads twice !! 2%nat
    = Some {| job := Fetch (chart_thread "bitcoin" 7); isRunning := true |}
  ∧ step Sample.day1 Sample.qt (FetchReturned 2 (Json (Ohlc Sample.series)))
      twice
    = deliver Sample.day1 Sample.qt
        (FetchThread.run (chart_thread "bitcoin" 7) (Json (Ohlc Sample.series)))
        (mark_finished 2 twice).
Proof.
  intros twice.
  assert (H : chart_cache Sample.loaded
                !! (Some "bitcoin", Some 7, Sample.day1) = None)
    by (vm_compute; reflexivity).
  assert (Hth : threads twice !! 2%nat
                = Some {| job := Fetch (chart_thread "bitcoin" 7);
                          isRunning := true |})
    by (vm_compute; reflexivity).
  split; [exact H|]. split.
  - exact (proj1 (every_request_starts_its_own_fetch
                    Sample.day1 "bitcoin" "Bitcoin" 7 Sample.loaded) H).
  - split; [exact Hth|].
    exact (proj1 (proj2 (proj2 (proj2 (every_request_starts_its_own_fetch
                    Sample.day1 "bitcoin" "Bitcoin" 7 twice)))
                    Sample.qt 2%nat (chart_thread "bitcoin" 7)
                    (Json (Ohlc Sample.series)) Hth)).
Defined.

Lemma cache_write_key_witness :
  let requested :=
    Sample.after (Sample.snapshot [Sample.btc; Sample.eth]
                  ++ [ (Sample.day1, Sample.qt, CellClicked 0 0) ]) in
  let answered :=
    Sample.after (Sample.snapshot [Sample.btc; Sample.eth]
                  ++ [ (Sample.day1, Sample.qt, CellClicked 0 0);
                       (Sample.day2, Sample.qt,
                        FetchReturned 2 (Json (Ohlc Sample.series))) ]) in
  step Sample.day2 Sample.qt (FetchReturned 2 (Json (Ohlc Sample.series)))
    requested
  = Some answered
  ∧ chart_cache answered
    = <[(Some "bitcoin", Some 7, Sample.day2) := map to_datetime Sample.series]>
        (chart_cache requested).
Proof.
  intros requested answered.
  assert (H : step Sample.day2 Sample.qt
                (FetchReturned 2 (Json (Ohlc Sample.series))) requested
              = Some answered)
    by (vm_compute; reflexivity).
  split; [exact H|].
  refine (proj2 (cache_write_key Sample.day2 Sample.qt _ requested answered H)
            2%nat (chart_thread "bitcoin" 7) "bitcoin" 7 Sample.series
            eq_refl _ eq_refl eq_refl _ eq_refl).
  - vm_compute; reflexivity.
  - discriminate.
Defined.

(** C2 fails on the code: a chart requested on [day1] whose answer arrives
    on [day2] is cached under [day2]; nothing is written under the key that
    the request computed. *)
Lemma cache_write_uses_completion_day :
  let answered :=
    Sample.after (Sample.snapshot [Sample.btc; Sample.eth]
                  ++ [ (Sample.day1, Sample.qt, CellClicked 0 0);
                       (Sample.day2, Sample.qt,
                        FetchReturned 2 (Json (Ohlc Sample.series))) ]) in
  chart_cache answered !! (Some "bitcoin", Some 7, Sample.day1) = None
  ∧ chart_cache answered !! (Some "bitcoin", Some 7, Sample.day2)
    = Some (map to_datetime Sample.series).
Proof. split; vm_compute; reflexivity. Qed.

Lemma series_keeps_payload_order_witness :
  Sample.series ≠ []
  ∧ timestamps_fit Sample.series = true
  ∧ chart_cache
      (on_chart_fetched Sample.day1 Sample.qt Sample.series (Some "bitcoin")
         (Some 7) Sample.loaded)
    !! (Some "bitcoin", Some 7, Sample.day1)
    = Some (map to_datetime Sample.series).
Proof.
  assert (Hne : Sample.series ≠ []) by discriminate.
  assert (Hfit : timestamps_fit Sample.series = true) by reflexivity.
  split; [exact Hne|]. split; [exact Hfit|].
  exact (proj1 (series_keeps_payload_order Sample.day1 Sample.qt Sample.series
                  (Some "bitcoin") (Some 7) Sample.loaded Hne Hfit)).
Defined.

(** C5 fails on the code: a payload whose records are out of order and
    repeat a timestamp is cached and drawn in that order, repetition
    included. *)
Lemma shuffled_payload_is_stored_as_is :
  let answered :=
    Sample.after (Sample.snapshot [Sample.btc; Sample.eth]
                  ++ [ (Sample.day1, Sample.qt, CellClicked 0 0);
                       (Sample.day1, Sample.qt,
                        FetchReturned 2 (Json (Ohlc Sample.shuffled))) ]) in
  ∃ df,
    chart_cache answered !! (Some "bitcoin", Some 7, Sample.day1) = Some df
    ∧ canvas answered = [(df, Some "Bitcoin", Some 7)]
    ∧ map r_timestamp df
      = [ 1700014400000000000; 1700000000000000000; 1700014400000000000 ]
    ∧ ¬ Sorted Z.le (map r_timestamp df)
    ∧ ¬ NoDup (map r_timestamp df).
Proof.
  eexists. split; [vm_compute; reflexivity|].
  split; [vm_compute; reflexivity|].
  split; [reflexivity|]. simpl. split.
  - intros H. apply Sorted_inv in H as [_ H]. apply HdRel_inv in H. lia.
  - intros H. apply NoDup_cons in H as [H _]. apply H. set_solver.
Qed.

Lemma empty_payload_is_reported_not_cached_witness :
  chart_cache Sample.loaded !! (Some "bitcoin", Some 7, Sample.day1) = None
  ∧ ∃ answered,
      step Sample.day1 Sample.qt
        (FetchReturned (length (threads Sample.loaded)) (Json (Ohlc [])))
        (start_chart_fetch Sample.day1 "bitcoin" "Bitcoin" 7 Sample.loaded)
      = Some answered
      ∧ chart_cache answered = chart_cache Sample.loaded.
Proof.
  assert (H : chart_cache Sample.loaded
                !! (Some "bitcoin", Some 7, Sample.day1) = None)
    by (vm_compute; reflexivity).
  split; [exact H|].
  destruct (empty_payload_is_reported_not_cached Sample.day1 Sample.day1
              Sample.qt "bitcoin" "Bitcoin" 7 Sample.loaded H)
    as (answered & Hstep & Hcache & _).
  exact (ex_intro _ answered (conj Hstep Hcache)).
Defined.

(** ** Routing by coin id *)

Section Routing.

Implicit Types (w : world) (self : t) (today : date) (data : list coin)
  (rows : list QTableWidgetItem) (raw : list ohlc_row).

Lemma coin_id_determines_record data (c c' : coin) :
  NoDup (map coin_id data) → c ∈ data → c' ∈ data →
  coin_id c = coin_id c' → c = c'.
Proof.
  induction data as [|x data IH]; simpl; intros Hnd Hc Hc' Heq.
  - by apply elem_of_nil in Hc.
  - apply NoDup_cons in Hnd as [Hx Hnd].
    apply elem_of_cons in Hc as [->|Hc]; apply elem_of_cons in Hc' as [->|Hc'].
    + done.
    + exfalso. apply Hx. rewrite Heq. apply list_elem_of_In, in_map.
      by apply list_elem_of_In.
    + exfalso. apply Hx. rewrite <- Heq. apply list_elem_of_In, in_map.
      by apply list_elem_of_In.
    + by apply IH.
Qed.

Lemma name_in_table_first_match rows (id name : string) :
  (∀ it, it ∈ rows → user_role it = id → text it = name) →
  (∃ it, it ∈ rows ∧ user_role it = id) →
  name_in_table rows (Some id) = Some name.
Proof.
  induction rows as [|it rows IH]; intros Hall (it' & Hin & Hid).
  - by apply elem_of_nil in Hin.
  - simpl. case_bool_decide as Hd.
    + f_equal. apply Hall; [left|congruence].
    + apply IH.
      * intros it0 Hin0. apply Hall. by right.
      * apply elem_of_cons in Hin as [->|Hin]; [|eauto].
        exfalso. apply Hd. by rewrite Hid.
Qed.

(** However the rows are ordered, the loop finds the name of the one
    record that carries the id. *)
Lemma name_in_table_sorted data rows (c : coin) :
  NoDup (map coin_id data) →
  rows ≡ₚ map name_item data →
  c ∈ data →
  name_in_table rows (Some (coin_id c)) = Some (coin_name c).
Proof.
  intros Hnd Hperm Hc. apply name_in_table_first_match.
  - intros it Hit Hid. rewrite Hperm in Hit.
    apply list_elem_of_In, in_map_iff in Hit as (c' & <- & Hc').
    apply list_elem_of_In in Hc'. simpl in *.
    by rewrite (coin_id_determines_record data c c').
  - exists (name_item c). split; [|done].
    rewrite Hperm. apply list_elem_of_In, in_map. by apply list_elem_of_In.
Qed.

(** X18. A table filled from a snapshot of distinct ids, its rows in any
    order: a click on a row starts a chart fetch for the id and name stored in
    that row's item. When that id has no colon and the answer arrives, the
    rows meanwhile sorted again in any way, the completion handler caches
    the series under that id and draws it under the name of the record with
    that id; it says so in the status text when the plot succeeds. *)
Theorem routing_follows_coin_id today today' w data rows' (row col : nat)
    (it : QTableWidgetItem) raw self :
  NoDup (map coin_id data) →
  table self ≡ₚ map name_item data →
  rows' ≡ₚ table self →
  table self !! row = Some it →
  Py.colon_free (user_role it) = true →
  chart_cache self
    !! (Some (user_role it), Some (range_days (range_dropdown self)), today)
  = None →
  raw ≠ [] → timestamps_fit raw = true →
  let days := range_days (range_dropdown self) in
  let requested := on_table_cell_clicked today row col self in
  ∃ c, c ∈ data ∧ it = name_item c
    ∧ threads requested
      = threads self
        ++ [{| job := Fetch (chart_thread (coin_id c) days);
               isRunning := true |}]
    ∧ ∃ answered,
        step today' w
          (FetchReturned (length (threads self)) (Json (Ohlc raw)))
          (set_table rows' requested) = Some answered
        ∧ chart_cache answered !! (Some (coin_id c), Some days, today')
          = Some (map to_datetime raw)
        ∧ canvas answered
          = canvas self
            ++ [(map to_datetime raw, Some (coin_name c), Some days)]
        ∧ (plot_error w = None →
           status_label answered = "Showing chart for " +:+ coin_name c).
Proof.
  intros Hnd Hperm Hperm' Hrow Hcf Hmiss Hne Hfit. cbv zeta.
  assert (Hit : it ∈ map name_item data).
  { rewrite <- Hperm. by eapply list_elem_of_lookup_2. }
  apply list_elem_of_In, in_map_iff in Hit as (c & <- & Hc).
  apply list_elem_of_In in Hc. simpl in Hcf, Hmiss.
  exists c. split; [done|]. split; [done|].
  unfold on_table_cell_clicked. rewrite Hrow. simpl user_role. simpl text.
  rewrite start_chart_fetch_miss by done.
  split; [done|]. eexists. split.
  - rewrite (step_fetch_returned _ _ _
               (chart_thread (coin_id c) (range_days (range_dropdown self))))
      by (simpl; by apply list_lookup_middle).
    simpl deliver. rewrite on_fetch_finished_chart.
    rewrite parse_chart_tag by done. simpl fst. simpl snd.
    by rewrite on_chart_fetched_stores by done.
  - simpl.
    rewrite (name_in_table_sorted data rows' c); [|done| |done];
      [|by rewrite Hperm'].
    destruct (plot_error w) as [msg|]; simpl; rewrite lookup_insert_eq;
      (repeat split; try done).
Qed.

End Routing.

Lemma routing_follows_coin_id_witness :
  ∃ c, c ∈ [Sample.btc; Sample.eth]
    ∧ {| text := "Ethereum"; user_role := "ethereum"; user_role1 := "eth" |}
      = name_item c
    ∧ threads (on_table_cell_clicked Sample.day1 1 0 Sample.loaded)
      = threads Sample.loaded
        ++ [{| job := Fetch (chart_thread (coin_id c) 7); isRunning := true |}].
Proof.
  assert (Hnd : NoDup (map coin_id [Sample.btc; Sample.eth])).
  { apply (bool_decide_unpack (NoDup (map coin_id [Sample.btc; Sample.eth]))).
    vm_compute. exact I. }
  assert (Htable : table Sample.loaded
                   = map name_item [Sample.btc; Sample.eth])
    by (vm_compute; reflexivity).
  assert (Hperm : table Sample.loaded ≡ₚ map name_item [Sample.btc; Sample.eth])
    by (by rewrite Htable).
  assert (Hperm' : rev (table Sample.loaded) ≡ₚ table Sample.loaded)
    by (symmetry; apply Permutation_rev).
  assert (Hrow : table Sample.loaded !! 1%nat
                 = Some {| text := "Ethereum"; user_role := "ethereum";
                           user_role1 := "eth" |})
    by (vm_compute; reflexivity).
  assert (Hcf : Py.colon_free "ethereum" = true) by reflexivity.
  assert (Hmiss : chart_cache Sample.loaded
                    !! (Some "ethereum",
                        Some (range_days (range_dropdown Sample.loaded)),
                        Sample.day1) = None)
    by (vm_compute; reflexivity).
  assert (Hne : Sample.series ≠ []) by discriminate.
  assert (Hfit : timestamps_fit Sample.series = true) by reflexivity.
  destruct (routing_follows_coin_id Sample.day1 Sample.day2 Sample.qt
              [Sample.btc; Sample.eth]
              (rev (table Sample.loaded)) 1 0 _ Sample.series Sample.loaded
              Hnd Hperm Hperm' Hrow Hcf Hmiss Hne Hfit)
    as (c & Hc & Hit & Hth & _).
  exact (ex_intro _ c (conj Hc (conj Hit Hth))).
Defined.


(** ** Failures *)

Section Failures.

Implicit Types (w : world) (self : t) (today : date) (i : nat).

(** C8. When a fetch thread ends in an exception, it emits [error] and
    nothing else, and the slot raises exactly one message box: the table,
    the card labels, the canvas and both caches are as they were, and the
    reaction ends in a state from which the event loop goes on. *)
Theorem failed_fetch_keeps_display today w i (th : FetchThread.t)
    (msg : string) self :
  threads self !! i = Some {| job := Fetch th; isRunning := true |} →
  FetchThread.run th (Raised msg) = error msg
  ∧ ∃ self',
      step today w (FetchReturned i (Raised msg)) self = Some self'
      ∧ table self' = table self
      ∧ card_icon_labels self' = card_icon_labels self
      ∧ canvas self' = canvas self
      ∧ chart_cache self' = chart_cache self
      ∧ icon_cache self' = icon_cache self
      ∧ message_boxes self'
        = message_boxes self ++ [("Fetch error", Text msg)].
Proof.
  intros Hth. split; [done|]. eexists. split.
  - by rewrite (step_fetch_returned _ _ _ th).
  - done.
Qed.

Lemma icons_frame (l : list (string * QPixmap)) self :
  let self' := foldl (λ s e, on_icon_loaded e.1 e.2 s) self l in
  message_boxes self' = message_boxes self
  ∧ status_label self' = status_label self
  ∧ table self' = table self
  ∧ canvas self' = canvas self
  ∧ threads self' = threads self.
Proof.
  revert self. induction l as [|[cid pm] l IH]; intros self; [done|].
  simpl. destruct (IH (on_icon_loaded cid pm self)) as (-> & -> & -> & -> & ->).
  unfold on_icon_loaded. by destruct (isNull pm).
Qed.

Lemma fetch_one_delivers net (c : coin) (u content : string) :
  coin_id c ≠ "" → coin_image c = Some u → u ≠ "" →
  net u = IconBytes content true →
  IconFetcher.fetch_one net c
  = [(coin_id c, {| isNull := false; pix_data := content |})].
Proof.
  intros Hid Himg Hu Hnet. unfold IconFetcher.fetch_one, IconFetcher.falsy.
  rewrite Himg, !bool_decide_eq_false_2 by done. simpl. by rewrite Hnet.
Qed.

(** C9. When the transport fails for the icon of one record, the signals
    emitted for the snapshot are those of the records before it followed by
    those of the records after it: every other record whose icon loads is
    delivered. Handling them raises no message box and leaves the status
    label, the table, the chart cache and the canvas alone. *)
Theorem icon_failure_is_swallowed today w net (pre post : list coin)
    (c : coin) (u : string) i self :
  coin_image c = Some u → net u = IconError →
  threads self !! i
  = Some {| job := Icons (pre ++ c :: post); isRunning := true |} →
  IconFetcher.run (pre ++ c :: post) net
  = IconFetcher.run pre net ++ IconFetcher.run post net
  ∧ (∀ (c' : coin) (u' content : string),
       c' ∈ pre ++ post →
       coin_id c' ≠ "" → coin_image c' = Some u' → u' ≠ "" →
       net u' = IconBytes content true →
       (coin_id c', {| isNull := false; pix_data := content |})
       ∈ IconFetcher.run (pre ++ c :: post) net)
  ∧ ∃ self',
      step today w (IconsReturned i net) self = Some self'
      ∧ message_boxes self' = message_boxes self
      ∧ status_label self' = status_label self
      ∧ table self' = table self
      ∧ chart_cache self' = chart_cache self
      ∧ canvas self' = canvas self.
Proof.
  intros Himg Hnet Hth.
  assert (Hrun : IconFetcher.run (pre ++ c :: post) net
                 = IconFetcher.run pre net ++ IconFetcher.run post net).
  { unfold IconFetcher.run. rewrite flat_map_app. simpl. f_equal.
    unfold IconFetcher.fetch_one. rewrite Himg, Hnet.
    by destruct (_ || _). }
  split; [exact Hrun|]. split.
  - intros c' u' content Hin Hid Himg' Hu' Hnet'. rewrite Hrun.
    unfold IconFetcher.run. rewrite <- flat_map_app.
    apply list_elem_of_In, in_flat_map. exists c'. split.
    + by apply list_elem_of_In.
    + rewrite (fetch_one_delivers net c' u' content) by done. by left.
  - eexists. split; [simpl; by rewrite Hth|].
    rewrite icons_keep_chart_cache.
    by destruct (icons_frame (IconFetcher.run (pre ++ c :: post) net)
                   (mark_finished i self)) as (-> & -> & -> & -> & _).
Qed.

End Failures.

Lemma failed_fetch_keeps_display_witness :
  threads (load_data Sample.loaded) !! 2%nat
  = Some {| job := Fetch {| FetchThread.url := API_URL;
                            FetchThread.params :=
                              [ ("vs_currency", PStr "usd");
                                ("ids", PStr (Py.join "," COINS));
                                ("price_change_percentage", PStr "24h,7d") ];
                            FetchThread.tag := "markets" |};
            isRunning := true |}
  ∧ ∃ self',
      step Sample.day1 Sample.qt (FetchReturned 2 (Raised "HTTP 429"))
        (load_data Sample.loaded) = Some self'
      ∧ table self' = table (load_data Sample.loaded)
      ∧ message_boxes self'
        = message_boxes (load_data Sample.loaded)
          ++ [("Fetch error", Text "HTTP 429")].
Proof.
  assert (Hth : threads (load_data Sample.loaded) !! 2%nat
                = Some {| job := Fetch {| FetchThread.url := API_URL;
                                          FetchThread.params :=
                                            [ ("vs_currency", PStr "usd");
                                              ("ids", PStr (Py.join "," COINS));
                                              ("price_change_percentage",
                                               PStr "24h,7d") ];
                                          FetchThread.tag := "markets" |};
                          isRunning := true |})
    by (vm_compute; reflexivity).
  split; [exact Hth|].
  destruct (failed_fetch_keeps_display Sample.day1 Sample.qt 2 _ "HTTP 429"
              (load_data Sample.loaded) Hth)
    as (_ & self' & Hstep & Htable & _ & _ & _ & _ & Hbox).
  exact (ex_intro _ self' (conj Hstep (conj Htable Hbox))).
Defined.

Lemma icon_failure_is_swallowed_witness :
  coin_image Sample.eth = Some "https://img.example/ethereum.png"
  ∧ Sample.net "https://img.example/ethereum.png" = IconError
  ∧ IconFetcher.run ([Sample.btc] ++ Sample.eth :: [Sample.sol]) Sample.net
    = IconFetcher.run [Sample.btc] Sample.net
      ++ IconFetcher.run [Sample.sol] Sample.net.
Proof.
  assert (Himg : coin_image Sample.eth
                 = Some "https://img.example/ethereum.png") by reflexivity.
  assert (Hnet : Sample.net "https://img.example/ethereum.png" = IconError)
    by reflexivity.
  assert (Hth : threads (Sample.after (Sample.snapshot
                           [Sample.btc; Sample.eth; Sample.sol])) !! 1%nat
                = Some {| job := Icons ([Sample.btc] ++ Sample.eth :: [Sample.sol]);
                          isRunning := true |})
    by (vm_compute; reflexivity).
  split; [exact Himg|]. split; [exact Hnet|].
  exact (proj1 (icon_failure_is_swallowed Sample.day1 Sample.qt Sample.net
                  [Sample.btc] [Sample.sol] Sample.eth _ 1 _ Himg Hnet Hth)).
Defined.

(** * Further properties of the code *)

#[local] Set Warnings "-clear-no-such-hyp".

(** ** Tags of coin ids with and without a colon *)

Section TagParsing.

Implicit Types (w : world) (self : t) (today : date) (coin_id coin_name : string)
  (days : Z) (raw : list ohlc_row).

Lemma uint_of_char_none (c : ascii) : uint_of_char c None = None.
Proof. done. Qed.

Lemma uint_of_string_colon (s : string) :
  Py.colon_free s = false → NilEmpty.uint_of_string s = None.
Proof.
  unfold Py.colon_free. rewrite bool_decide_eq_false.
  induction s as [|c s IH]; simpl; [done|].
  destruct (Ascii.eqb_spec c ":") as [->|Hc].
  - intros _. by destruct (NilEmpty.uint_of_string s).
  - destruct (Py.partition_colon s) as [[a b]|]; [|done].
    intros _. by rewrite IH.
Qed.

Lemma int_of_str_colon (s : string) :
  Py.colon_free s = false → Py.int_of_str s = None.
Proof.
  intros Hs. unfold Py.int_of_str, NilZero.int_of_string.
  destruct s as [|c s]; [done|].
  destruct (Ascii.eqb_spec c "-") as [->|Hc].
  - assert (Hs' : Py.colon_free s = false).
    { revert Hs. unfold Py.colon_free. rewrite !bool_decide_eq_false. simpl.
      by destruct (Py.partition_colon s) as [[a b]|]. }
    unfold NilZero.uint_of_string. destruct s as [|c' s']; [done|].
    by rewrite uint_of_string_colon.
  - unfold NilZero.uint_of_string. by rewrite uint_of_string_colon.
Qed.

Lemma partition_colon_app_some (s a b rest : string) :
  Py.partition_colon s = Some (a, b) →
  Py.partition_colon (s +:+ rest) = Some (a, b +:+ rest).
Proof.
  revert a. induction s as [|c s IH]; intros a; simpl; [done|].
  destruct (Ascii.eqb c ":"); [by intros [= <- <-]|].
  destruct (Py.partition_colon s) as [[a' b']|]; [|done].
  intros [= <- <-]. by rewrite (IH a').
Qed.

Lemma colon_free_app_colon (b rest : string) :
  Py.colon_free (b +:+ ":" +:+ rest) = false.
Proof.
  unfold Py.colon_free. rewrite bool_decide_eq_false.
  induction b as [|c b IH]; simpl; [done|].
  destruct (Ascii.eqb c ":"); [done|].
  by destruct (Py.partition_colon (b +:+ ":" +:+ rest)) as [[a' b']|].
Qed.

Lemma parse_chart_tag_colon coin_id days :
  Py.colon_free coin_id = false →
  parse_tag (chart_tag coin_id days) = (None, None).
Proof.
  intros Hc. unfold parse_tag, chart_tag.
  change (Py.split_colon 2 ("chart:" +:+ coin_id +:+ ":" +:+ Py.str_of_int days))
    with ("chart" :: Py.split_colon 1 (coin_id +:+ ":" +:+ Py.str_of_int days)).
  simpl Py.split_colon.
  destruct (Py.partition_colon coin_id) as [[a b]|] eqn:Hp.
  - rewrite (partition_colon_app_some _ a b) by done.
    by rewrite int_of_str_colon by apply colon_free_app_colon.
  - unfold Py.colon_free in Hc. by rewrite Hp in Hc.
Qed.

(** X1. The tag written by a chart request is read back by the completion
    slot as the same coin id and range exactly when the coin id contains no
    colon; with a colon in the id the slot reads [(None, None)]. *)
Theorem parse_chart_tag_iff coin_id days :
  parse_tag (chart_tag coin_id days)
  = if Py.colon_free coin_id then (Some coin_id, Some days)
    else (None, None).
Proof.
  destruct (Py.colon_free coin_id) eqn:Hc.
  - by apply parse_chart_tag.
  - by apply parse_chart_tag_colon.
Qed.

(** X2. A chart request that misses, then its answer on the same day with a
    usable payload, then the same request again (for a coin id without a
    colon): the second request starts no thread and draws the very frame
    that was built from the payload. *)
Theorem second_request_is_served_from_cache today w coin_id coin_name days
    raw self :
  Py.colon_free coin_id = true →
  chart_cache self !! (Some coin_id, Some days, today) = None →
  raw ≠ [] → timestamps_fit raw = true →
  ∃ answered,
    step today w (FetchReturned (length (threads self)) (Json (Ohlc raw)))
      (start_chart_fetch today coin_id coin_name days self) = Some answered
    ∧ threads (start_chart_fetch today coin_id coin_name days answered)
      = threads answered
    ∧ canvas (start_chart_fetch today coin_id coin_name days answered)
      = canvas answered ++ [(map to_datetime raw, Some coin_name, Some days)].
Proof.
  intros Hcf Hmiss Hne Hfit. rewrite start_chart_fetch_miss by done.
  eexists. split.
  - rewrite (step_fetch_returned _ _ _ (chart_thread coin_id days))
      by (simpl; by apply list_lookup_middle).
    simpl deliver. rewrite on_fetch_finished_chart.
    rewrite parse_chart_tag by done. simpl fst. simpl snd.
    by rewrite on_chart_fetched_stores by done.
  - rewrite (start_chart_fetch_hit _ _ _ _ (map to_datetime raw));
      [done|]. destruct (plot_error w); simpl; by rewrite lookup_insert_eq.
Qed.

(** X3. For a coin id that contains a colon the cache never serves: whatever
    payload answers the request, nothing is stored under the key that a
    request computes, and the same request made again starts a fetch
    again. *)
Theorem colon_id_is_fetched_every_time today today' w coin_id coin_name days
    raw self :
  Py.colon_free coin_id = false →
  chart_cache self !! (Some coin_id, Some days, today) = None →
  ∃ answered,
    step today' w (FetchReturned (length (threads self)) (Json (Ohlc raw)))
      (start_chart_fetch today coin_id coin_name days self) = Some answered
    ∧ chart_cache answered !! (Some coin_id, Some days, today) = None
    ∧ threads (start_chart_fetch today coin_id coin_name days answered)
      = threads answered
        ++ [{| job := Fetch (chart_thread coin_id days); isRunning := true |}].
Proof.
  intros Hcf Hmiss. rewrite start_chart_fetch_miss by done.
  eexists. split.
  - rewrite (step_fetch_returned _ _ _ (chart_thread coin_id days))
      by (simpl; by apply list_lookup_middle).
    simpl deliver. rewrite on_fetch_finished_chart.
    rewrite parse_chart_tag_colon by done. simpl fst. simpl snd. done.
  - assert (Hkeep :
      chart_cache
        (on_chart_fetched today' w raw None None
           (mark_finished (length (threads self))
              (setText ("Fetching " +:+ coin_name +:+ " "
                        +:+ Py.str_of_int days +:+ "d chart...")
                 (start (Fetch (chart_thread coin_id days)) self))))
        !! (Some coin_id, Some days, today) = None).
    { unfold on_chart_fetched. destruct raw as [|r0 raw]; [done|].
      destruct (timestamps_fit (r0 :: raw)); [|done].
      destruct (plot_error w); simpl; by rewrite lookup_insert_ne. }
    split; [exact Hkeep|].
    by rewrite start_chart_fetch_miss by exact Hkeep.
Qed.

End TagParsing.

Lemma second_request_is_served_from_cache_witness :
  Py.colon_free "bitcoin" = true
  ∧ ∃ answered,
      step Sample.day1 Sample.qt (FetchReturned (length (threads Sample.loaded))
                          (Json (Ohlc Sample.series)))
        (start_chart_fetch Sample.day1 "bitcoin" "Bitcoin" 7 Sample.loaded)
      = Some answered
      ∧ threads (start_chart_fetch Sample.day1 "bitcoin" "Bitcoin" 7 answered)
        = threads answered.
Proof.
  assert (Hcf : Py.colon_free "bitcoin" = true) by reflexivity.
  assert (Hmiss : chart_cache Sample.loaded
                    !! (Some "bitcoin", Some 7, Sample.day1) = None)
    by (vm_compute; reflexivity).
  assert (Hne : Sample.series ≠ []) by discriminate.
  assert (Hfit : timestamps_fit Sample.series = true) by reflexivity.
  split; [exact Hcf|].
  destruct (second_request_is_served_from_cache Sample.day1 Sample.qt
              "bitcoin" "Bitcoin" 7 Sample.series Sample.loaded
              Hcf Hmiss Hne Hfit)
    as (answered & Hstep & Hth & _).
  exact (ex_intro _ answered (conj Hstep Hth)).
Defined.

Lemma colon_id_is_fetched_every_time_witness :
  Py.colon_free "wrapped:btc" = false
  ∧ ∃ answered,
      step Sample.day1 Sample.qt (FetchReturned (length (threads Sample.loaded))
                          (Json (Ohlc Sample.series)))
        (start_chart_fetch Sample.day1 "wrapped:btc" "Wrapped" 7 Sample.loaded)
      = Some answered
      ∧ chart_cache answered !! (Some "wrapped:btc", Some 7, Sample.day1)
        = None.
Proof.
  assert (Hcf : Py.colon_free "wrapped:btc" = false) by reflexivity.
  assert (Hmiss : chart_cache Sample.loaded
                    !! (Some "wrapped:btc", Some 7, Sample.day1) = None)
    by (vm_compute; reflexivity).
  split; [exact Hcf|].
  destruct (colon_id_is_fetched_every_time Sample.day1 Sample.day1
              Sample.qt "wrapped:btc" "Wrapped" 7 Sample.series Sample.loaded
              Hcf Hmiss)
    as (answered & Hstep & Hkey & _).
  exact (ex_intro _ answered (conj Hstep Hkey)).
Defined.

(** ** The answer to a markets request *)

Section Markets.

Implicit Types (w : world) (self : t) (today : date) (data : list coin).

Lemma sort_rows_perm w (rows : list QTableWidgetItem) :
  sort_rows w rows ≡ₚ rows.
Proof. unfold sort_rows. by case_bool_decide. Qed.

Lemma add_cards_dom_sub data (m : gmap string QLabel) :
  dom (add_cards data m).1 ⊆ dom m ∪ list_to_set (map coin_id data).
Proof.
  revert m. induction data as [|c data IH]; intros m; simpl; [set_solver|].
  destruct (coin_price c).
  - etrans; [apply IH|]. rewrite dom_insert. set_solver.
  - simpl. rewrite dom_insert. set_solver.
Qed.

Lemma add_cards_priced data (m : gmap string QLabel) :
  (∀ c, c ∈ data → coin_price c ≠ None) →
  (add_cards data m).2 = false
  ∧ dom (add_cards data m).1 = dom m ∪ list_to_set (map coin_id data).
Proof.
  revert m. induction data as [|c data IH]; intros m Hall; simpl.
  - split; [done|set_solver].
  - destruct (coin_price c) eqn:Hp; [|by destruct (Hall c); [left|]].
    destruct (IH (<[coin_id c := {| pixmap := None |}]> m)) as [-> ->].
    { intros c' Hc'. apply Hall. by right. }
    split; [done|]. rewrite dom_insert_L. set_solver.
Qed.

Lemma add_cards_null data (m : gmap string QLabel) :
  (∃ c, c ∈ data ∧ coin_price c = None) → (add_cards data m).2 = true.
Proof.
  revert m. induction data as [|c data IH]; intros m (c' & Hin & Hnull).
  - by apply elem_of_nil in Hin.
  - simpl. destruct (coin_price c) eqn:Hp; [|done].
    apply IH. apply elem_of_cons in Hin as [->|Hin]; [congruence|eauto].
Qed.

Lemma add_cards_blank data (m : gmap string QLabel) :
  (∀ id lbl, m !! id = Some lbl → pixmap lbl = None) →
  ∀ id lbl, (add_cards data m).1 !! id = Some lbl → pixmap lbl = None.
Proof.
  revert m. induction data as [|c data IH]; intros m Hm; simpl; [done|].
  assert (Hm' : ∀ id lbl,
            <[coin_id c := {| pixmap := None |}]> m !! id = Some lbl →
            pixmap lbl = None).
  { intros id lbl. destruct (decide (coin_id c = id)) as [->|Hne].
    - rewrite lookup_insert_eq. by intros [= <-].
    - rewrite lookup_insert_ne by done. apply Hm. }
  destruct (coin_price c); [by apply IH|exact Hm'].
Qed.

(** X4. A markets answer rebuilds the table from the payload alone: one
    row per record, each row storing the id and name of its record, in the
    order in which the header's sort leaves them, whatever rows were there
    before. The label dictionary is rebuilt too: its keys are ids of the
    payload, and all of them when no record comes with a null price. *)
Theorem markets_answer_rebuilds_registries today w data self :
  ∃ self',
    on_fetch_finished today w (Markets data) "markets" self = Some self'
    ∧ table self' ≡ₚ map name_item data
    ∧ length (table self') = length data
    ∧ (∀ c, c ∈ data → name_item c ∈ table self')
    ∧ (∀ it, it ∈ table self' → ∃ c, c ∈ data ∧ it = name_item c)
    ∧ dom (card_icon_labels self') ⊆ list_to_set (map coin_id data)
    ∧ ((∀ c, c ∈ data → coin_price c ≠ None) →
       dom (card_icon_labels self') = list_to_set (map coin_id data)).
Proof.
  destruct (on_fetch_finished today w (Markets data) "markets" self)
    as [self'|] eqn:Hm.
  2: { unfold on_fetch_finished, populate_cards in Hm. simpl in Hm.
       by destruct (add_cards data ∅) as [labels [|]]. }
  exists self'. split; [done|].
  destruct (markets_answer_frame _ _ _ _ _ Hm)
    as (_ & _ & _ & _ & Htable & Hlabels & _).
  assert (Hperm : table self' ≡ₚ map name_item data).
  { rewrite Htable. apply sort_rows_perm. }
  split; [exact Hperm|]. split.
  { by rewrite Hperm, length_map. }
  split.
  { intros c Hc. rewrite Hperm.
    apply list_elem_of_In, in_map. by apply list_elem_of_In. }
  split.
  { intros it Hit. rewrite Hperm in Hit.
    apply list_elem_of_In, in_map_iff in Hit as (c & <- & Hc).
    exists c. split; [by apply list_elem_of_In|done]. }
  rewrite Hlabels. split.
  - etrans; [apply add_cards_dom_sub|]. set_solver.
  - intros Hall. destruct (add_cards_priced data ∅ Hall) as [_ ->].
    set_solver.
Qed.

(** X5. A markets answer leaves the icon cache as it is but every card
    label without a pixmap, also for ids whose icon is in the cache: the
    cache is written and never read. When no record comes with a null
    price the answer starts one new [IconFetcher] for the whole payload.
    When some record does, the exception raised in [populate_cards] leaves
    the slot: no [IconFetcher] is started and the status text stays as it
    was. *)
Theorem markets_answer_blanks_all_icons today w data self :
  ∃ self',
    on_fetch_finished today w (Markets data) "markets" self = Some self'
    ∧ icon_cache self' = icon_cache self
    ∧ (∀ id lbl, card_icon_labels self' !! id = Some lbl → pixmap lbl = None)
    ∧ ((∀ c, c ∈ data → coin_price c ≠ None) →
       threads self'
       = threads self ++ [{| job := Icons data; isRunning := true |}])
    ∧ ((∃ c, c ∈ data ∧ coin_price c = None) →
       threads self' = threads self
       ∧ status_label self' = status_label self).
Proof.
  destruct (on_fetch_finished today w (Markets data) "markets" self)
    as [self'|] eqn:Hm.
  2: { unfold on_fetch_finished, populate_cards in Hm. simpl in Hm.
       by destruct (add_cards data ∅) as [labels [|]]. }
  exists self'. split; [done|].
  destruct (markets_answer_frame _ _ _ _ _ Hm)
    as (_ & Hic & _ & _ & _ & Hlabels & Hth).
  split; [exact Hic|]. split.
  { rewrite Hlabels. apply add_cards_blank.
    intros id lbl. by rewrite lookup_empty. }
  split.
  - intros Hall. destruct (add_cards_priced data ∅ Hall) as [Hf _].
    destruct Hth as [(Ht & _)|(_ & Hth)]; [congruence|done].
  - intros Hnull. pose proof (add_cards_null data ∅ Hnull) as Ht.
    destruct Hth as [(_ & Hth & Hst)|(Hf & _)]; [done|congruence].
Qed.

End Markets.

Lemma markets_answer_rebuilds_registries_witness :
  ∃ self',
    on_fetch_finished Sample.day1 Sample.qt_reversing
      (Markets [Sample.btc; Sample.eth]) "markets" Sample.loaded = Some self'
    ∧ table self' ≡ₚ map name_item [Sample.btc; Sample.eth]
    ∧ dom (card_icon_labels self')
      = list_to_set (map coin_id [Sample.btc; Sample.eth]).
Proof.
  destruct (markets_answer_rebuilds_registries Sample.day1
              Sample.qt_reversing [Sample.btc; Sample.eth] Sample.loaded)
    as (self' & Hstep & Hperm & _ & _ & _ & _ & Hdom).
  exists self'. split; [exact Hstep|]. split; [exact Hperm|].
  apply Hdom. intros c Hc.
  apply elem_of_cons in Hc as [->|Hc]; [discriminate|].
  apply elem_of_cons in Hc as [->|Hc]; [discriminate|].
  by apply elem_of_nil in Hc.
Defined.

Lemma markets_answer_blanks_all_icons_witness :
  (∃ c, c ∈ [Sample.btc; Sample.delisted; Sample.eth] ∧ coin_price c = None)
  ∧ ∃ self',
      on_fetch_finished Sample.day1 Sample.qt
        (Markets [Sample.btc; Sample.delisted; Sample.eth]) "markets"
        Sample.loaded = Some self'
      ∧ threads self' = threads Sample.loaded
      ∧ status_label self' = status_label Sample.loaded.
Proof.
  assert (Hnull : ∃ c, c ∈ [Sample.btc; Sample.delisted; Sample.eth]
                       ∧ coin_price c = None).
  { exists Sample.delisted. split; [right; left|reflexivity]. }
  split; [exact Hnull|].
  destruct (markets_answer_blanks_all_icons Sample.day1 Sample.qt
              [Sample.btc; Sample.delisted; Sample.eth] Sample.loaded)
    as (self' & Hstep & _ & _ & _ & Hraise).
  exists self'. split; [exact Hstep|]. exact (Hraise Hnull).
Defined.

(** ** Names for ids that the table does not hold *)

Section NameFallback.

Implicit Types (w : world) (self : t) (today : date) (raw : list ohlc_row).

Lemma name_in_table_absent (rows : list QTableWidgetItem) (cid : string) :
  (∀ it, it ∈ rows → user_role it ≠ cid) →
  name_in_table rows (Some cid) = Some cid.
Proof.
  induction rows as [|it rows IH]; intros Hall; simpl; [done|].
  rewrite bool_decide_eq_false_2.
  - apply IH. intros it' Hin. apply Hall. by right.
  - intros [= E]. by apply (Hall it); [left|].
Qed.

(** X6. When the answer to a chart request arrives and no row of the table
    stores its coin id any more, the series is cached and handed to
    [draw_candlestick] all the same, under the coin id itself as the name.
    When the plot succeeds no message box is raised and the status text
    names the id; when [mpf.plot] raises, its message is shown in one
    "Chart error" box and the status text stays as it was. *)
Theorem chart_for_missing_row_is_named_by_id today w raw (cid : string)
    (range : option Z) self :
  (∀ it, it ∈ table self → user_role it ≠ cid) →
  raw ≠ [] → timestamps_fit raw = true →
  let self' := on_chart_fetched today w raw (Some cid) range self in
  canvas self' = canvas self ++ [(map to_datetime raw, Some cid, range)]
  ∧ chart_cache self' !! (Some cid, range, today) = Some (map to_datetime raw)
  ∧ (plot_error w = None →
     status_label self' = "Showing chart for " +:+ cid
     ∧ message_boxes self' = message_boxes self)
  ∧ (∀ msg, plot_error w = Some msg →
     status_label self' = status_label self
     ∧ message_boxes self' = message_boxes self ++ [("Chart error", Text msg)]).
Proof.
  intros Habs Hne Hfit. cbv zeta. rewrite on_chart_fetched_stores by done.
  simpl. rewrite name_in_table_absent by done.
  destruct (plot_error w) as [msg'|]; simpl; rewrite lookup_insert_eq.
  - split; [done|]. split; [done|]. split; [done|]. by intros m [= <-].
  - split; [done|]. split; [done|]. split; [done|]. by intros m [=].
Qed.

End NameFallback.

Lemma chart_for_missing_row_is_named_by_id_witness :
  (∀ it, it ∈ table Sample.loaded → user_role it ≠ "solana")
  ∧ canvas (on_chart_fetched Sample.day1 Sample.qt_plot_fails Sample.series
              (Some "solana") (Some 7) Sample.loaded)
    = canvas Sample.loaded
      ++ [(map to_datetime Sample.series, Some "solana", Some 7)]
  ∧ message_boxes (on_chart_fetched Sample.day1 Sample.qt_plot_fails
                     Sample.series (Some "solana") (Some 7) Sample.loaded)
    = message_boxes Sample.loaded ++ [("Chart error", Text "no plot today")].
Proof.
  assert (Habs : ∀ it, it ∈ table Sample.loaded → user_role it ≠ "solana").
  { intros it Hin.
    change (table Sample.loaded)
      with (map name_item [Sample.btc; Sample.eth]) in Hin.
    simpl in Hin.
    apply elem_of_cons in Hin as [->|Hin]; [discriminate|].
    apply elem_of_cons in Hin as [->|Hin]; [discriminate|].
    by apply elem_of_nil in Hin. }
  assert (Hne : Sample.series ≠ []) by discriminate.
  assert (Hfit : timestamps_fit Sample.series = true) by reflexivity.
  split; [exact Habs|].
  destruct (chart_for_missing_row_is_named_by_id Sample.day1
              Sample.qt_plot_fails Sample.series "solana" (Some 7)
              Sample.loaded Habs Hne Hfit) as (Hcv & _ & _ & Hfail).
  split; [exact Hcv|].
  exact (proj2 (Hfail "no plot today" eq_refl)).
Defined.

(** ** Icons *)

Section Icons.

Implicit Types (w : world) (self : t) (today : date) (coins : list coin) (i : nat)
  (net : string → icon_reply) (l : list (string * QPixmap)).

Lemma fetch_one_cases net (c : coin) :
  IconFetcher.fetch_one net c = []
  ∨ ∃ u content ok,
      coin_id c ≠ "" ∧ coin_image c = Some u ∧ u ≠ ""
      ∧ net u = IconBytes content ok
      ∧ IconFetcher.fetch_one net c
        = [(coin_id c,
            {| isNull := negb ok; pix_data := if ok then content else "" |})].
Proof.
  unfold IconFetcher.fetch_one, IconFetcher.falsy.
  destruct (coin_image c) as [u|]; [|by left].
  do 2 case_bool_decide; simpl; try by left.
  destruct (net u) as [|content ok] eqn:Hnet; [by left|].
  right. by exists u, content, ok.
Qed.

(** X7. [IconFetcher.run] emits at most one signal per record and in the
    order of the payload: the ids emitted form a subsequence of the ids of
    the payload, and each signal belongs to a record with a non-empty id and
    a non-empty image URL that the transport answered with bytes. *)
Theorem icon_signals_follow_the_payload coins net :
  map fst (IconFetcher.run coins net) `sublist_of` map coin_id coins
  ∧ ∀ id pm, (id, pm) ∈ IconFetcher.run coins net →
      ∃ c u content ok,
        c ∈ coins ∧ coin_id c = id ∧ id ≠ ""
        ∧ coin_image c = Some u ∧ u ≠ ""
        ∧ net u = IconBytes content ok
        ∧ pm = {| isNull := negb ok;
                  pix_data := if ok then content else "" |}.
Proof.
  unfold IconFetcher.run. induction coins as [|c coins [IHs IHm]]; simpl.
  - split; [done|]. intros id pm Hin. by apply elem_of_nil in Hin.
  - destruct (fetch_one_cases net c)
      as [->|(u & content & ok & Hid & Himg & Hu & Hnet & ->)]; simpl.
    + split; [by apply sublist_cons|].
      intros id pm Hin. destruct (IHm id pm Hin) as (c' & H').
      exists c'. destruct H' as (u & content & ok & Hc' & H').
      exists u, content, ok. split; [by right|done].
    + split; [by apply sublist_skip|].
      intros id pm [[= -> ->]|Hin]%elem_of_cons.
      * exists c, u, content, ok. repeat split; try done. by left.
      * destruct (IHm id pm Hin) as (c' & u' & content' & ok' & Hc' & H').
        exists c', u', content', ok'. split; [by right|done].
Qed.

(** X8. When an [IconFetcher] has loaded the icon of its next record, the
    reaction to that signal puts the icon into the icon cache under the
    record's id. The card label of that id shows it if the label dictionary
    has the id at that moment; if the card is gone, or a later markets
    answer has not brought it back, no label is made for it. Nothing
    changes for any other id, and the fetcher is left with the records that
    follow. *)
Theorem loaded_icon_reaches_its_card today w (c : coin) (rest : list coin)
    (u content : string) i self :
  threads self !! i = Some {| job := Icons (c :: rest); isRunning := true |} →
  coin_id c ≠ "" → coin_image c = Some u → u ≠ "" →
  let pm := {| isNull := false; pix_data := content |} in
  ∃ self',
    step today w (IconFetched i (IconBytes content true)) self = Some self'
    ∧ icon_cache self' !! coin_id c = Some pm
    ∧ card_icon_labels self' !! coin_id c
      = (λ _, {| pixmap := Some pm |}) <$> card_icon_labels self !! coin_id c
    ∧ (∀ id, id ≠ coin_id c →
         icon_cache self' !! id = icon_cache self !! id
         ∧ card_icon_labels self' !! id = card_icon_labels self !! id)
    ∧ threads self' !! i
      = Some {| job := Icons rest; isRunning := true |}.
Proof.
  intros Hth Hid Himg Hu pm.
  eexists. split.
  - cbn [step]. rewrite Hth.
    by rewrite (fetch_one_delivers (λ _, IconBytes content true) c u content).
  - simpl. rewrite lookup_insert_eq, lookup_alter_eq.
    split; [done|]. split; [done|]. split.
    + intros id Hne.
      by rewrite lookup_insert_ne, lookup_alter_ne by done.
    + rewrite list_lookup_alter_eq, Hth. done.
Qed.

End Icons.

Lemma loaded_icon_reaches_its_card_witness :
  threads Sample.loaded !! 1%nat
  = Some {| job := Icons [Sample.btc; Sample.eth]; isRunning := true |}
  ∧ ∃ self',
      step Sample.day1 Sample.qt
        (IconFetched 1 (IconBytes "PNG bytes" true)) Sample.loaded
      = Some self'
      ∧ icon_cache self' !! "bitcoin"
        = Some {| isNull := false; pix_data := "PNG bytes" |}.
Proof.
  assert (Hth : threads Sample.loaded !! 1%nat
                = Some {| job := Icons [Sample.btc; Sample.eth];
                          isRunning := true |})
    by (vm_compute; reflexivity).
  assert (Hid : coin_id Sample.btc ≠ "") by discriminate.
  assert (Himg : coin_image Sample.btc
                 = Some "https://img.example/bitcoin.png") by reflexivity.
  assert (Hu : "https://img.example/bitcoin.png" ≠ "") by discriminate.
  split; [exact Hth|].
  destruct (loaded_icon_reaches_its_card Sample.day1 Sample.qt Sample.btc
              [Sample.eth] _ "PNG bytes" 1 Sample.loaded Hth Hid Himg Hu)
    as (self' & Hstep & Hcache & _).
  exact (ex_intro _ self' (conj Hstep Hcache)).
Defined.

(** ** What the event loop keeps *)

Section Invariants.

Implicit Types (w : world) (self : t) (today : date) (ev : event)
  (evs : list (date * world * event)).

(** A reaction either leaves the chart cache alone, handing at most a frame
    taken from it to [draw_candlestick], or stores one non-empty frame and
    hands that frame over. *)
Lemma step_cache_and_canvas today w ev self self' :
  step today w ev self = Some self' →
  (chart_cache self' = chart_cache self
   ∧ (canvas self' = canvas self
      ∨ ∃ k df name range,
          chart_cache self !! k = Some df
          ∧ canvas self' = canvas self ++ [(df, name, range)]))
  ∨ ∃ k df name range,
      df ≠ []
      ∧ chart_cache self' = <[k := df]> (chart_cache self)
      ∧ canvas self' = canvas self ++ [(df, name, range)].
Proof.
  assert (Hreq : ∀ cid cname days,
    chart_cache (start_chart_fetch today cid cname days self)
    = chart_cache self
    ∧ (canvas (start_chart_fetch today cid cname days self) = canvas self
       ∨ ∃ k df name range,
           chart_cache self !! k = Some df
           ∧ canvas (start_chart_fetch today cid cname days self)
             = canvas self ++ [(df, name, range)])).
  { intros cid cname days. unfold start_chart_fetch. cbv zeta.
    destruct (chart_cache self !! _) as [df|] eqn:Hk.
    - split; [done|]. right. by eexists _, df, _, _.
    - split; [done|by left]. }
  destruct ev as [|row col|r|label|i r|i net|i reply|cid cname|];
    cbn [step].
  - intros [= <-]. left. split; [done|by left].
  - intros [= <-]. left. unfold on_table_cell_clicked.
    destruct (table self !! row) as [it|]; [|split; [done|by left]].
    apply Hreq.
  - intros [= <-]. left. split; [done|by left].
  - intros [= <-]. left. split; [done|by left].
  - destruct (threads self !! i) as [[[th|coins] [|]]|] eqn:Hth; try done.
    destruct r as [msg|[data|raw]]; cbn [FetchThread.run deliver].
    + intros [= <-]. left. split; [done|by left].
    + destruct (decide (FetchThread.tag th = "markets")) as [Htag|Htag].
      * rewrite Htag. intros Hm. left.
        destruct (markets_answer_frame _ _ _ _ _ Hm) as (-> & _ & -> & _).
        split; [done|by left].
      * unfold on_fetch_finished. rewrite bool_decide_eq_false_2 by done.
        destruct (Py.startswith _ _);
          [|intros [= <-]; left; split; [done|by left]].
        by destruct (parse_tag _).
    + unfold on_fetch_finished. case_bool_decide; [done|].
      destruct (Py.startswith _ _);
        [|intros [= <-]; left; split; [done|by left]].
      destruct (parse_tag (FetchThread.tag th)) as [cid range].
      intros [= <-]. unfold on_chart_fetched.
      destruct raw as [|r0 raw]; [left; split; [done|by left]|].
      destruct (timestamps_fit (r0 :: raw));
        [|left; split; [done|by left]].
      right. eexists _, (map to_datetime (r0 :: raw)), _, _.
      split; [done|]. by destruct (plot_error w).
  - destruct (threads self !! i) as [[[th|coins] [|]]|] eqn:Hth; try done.
    intros [= <-]. left. rewrite icons_keep_chart_cache.
    split; [done|]. left.
    by destruct (icons_frame (IconFetcher.run coins net)
                   (mark_finished i self)) as (_ & _ & _ & -> & _).
  - destruct (threads self !! i) as [[[th|[|c rest]] [|]]|] eqn:Hth;
      try done.
    intros [= <-]. left. rewrite icons_keep_chart_cache.
    split; [done|]. left.
    by destruct (icons_frame (IconFetcher.fetch_one (λ _, reply) c)
                   (advance i rest self)) as (_ & _ & _ & -> & _).
  - intros [= <-]. left. unfold card_pressed.
    destruct (row_of _ _ _); [|split; [done|by left]].
    apply Hreq.
  - intros [= <-]. left. split; [done|by left].
Qed.

(** X9. No reaction ever removes an entry of the chart cache: the set of
    keys present can only grow along a run of the event loop (entries of
    past days are never evicted). The runs are those of every reaction that
    touches the state: timer and refresh button, cell click, card press,
    header sort, range and interval selection, answers of fetch threads
    and signals of icon fetchers, with Qt and the plotting library free to
    do what they do. *)
Theorem chart_cache_never_shrinks evs self self' :
  run_loop evs self = Some self' →
  dom (chart_cache self) ⊆ dom (chart_cache self').
Proof.
  revert self. induction evs as [|[[today w] ev] evs IH]; intros self; simpl.
  - by intros [= <-].
  - destruct (step today w ev self) as [self1|] eqn:Hstep; [|done].
    intros Hrun. etrans; [|by apply IH].
    destruct (step_cache_and_canvas _ _ _ _ _ Hstep)
      as [[-> _]|(k & df & _ & _ & _ & -> & _)]; [done|].
    rewrite dom_insert. set_solver.
Qed.

(** Non-empty frames in the cache and on the canvas stay so. *)
Lemma step_frames_nonempty today w ev self self' :
  step today w ev self = Some self' →
  (∀ k df, chart_cache self !! k = Some df → df ≠ [])
  ∧ Forall (λ d : drawing, d.1.1 ≠ []) (canvas self) →
  (∀ k df, chart_cache self' !! k = Some df → df ≠ [])
  ∧ Forall (λ d : drawing, d.1.1 ≠ []) (canvas self').
Proof.
  intros Hstep [Hc Hd].
  destruct (step_cache_and_canvas _ _ _ _ _ Hstep)
    as [[Hcache [Hcv|(k & df & n & r & Hk & Hcv)]]
       |(k & df & n & r & Hne & Hcache & Hcv)];
    split; rewrite ?Hcache, ?Hcv; try done.
  - apply Forall_app. split; [done|]. apply Forall_singleton. simpl. eauto.
  - intros k' df'. destruct (decide (k = k')) as [->|Hkk].
    + rewrite lookup_insert_eq. by intros [= <-].
    + rewrite lookup_insert_ne by done. apply Hc.
  - apply Forall_app. split; [done|]. by apply Forall_singleton.
Qed.

(** X10. Starting from the freshly built object, every series in the chart
    cache and every series handed to [draw_candlestick] is non-empty,
    whatever events occur (cell clicks, card presses and header sorts
    included): an empty payload is never cached or drawn. *)
Theorem frames_are_never_empty evs self' :
  run_loop evs init = Some self' →
  (∀ k df, chart_cache self' !! k = Some df → df ≠ [])
  ∧ ∀ df name range, (df, name, range) ∈ canvas self' → df ≠ [].
Proof.
  intros Hrun.
  assert (Hinv : (∀ k df, chart_cache self' !! k = Some df → df ≠ [])
                 ∧ Forall (λ d : drawing, d.1.1 ≠ []) (canvas self')).
  { assert (H0 : (∀ k df, chart_cache init !! k = Some df → df ≠ [])
                 ∧ Forall (λ d : drawing, d.1.1 ≠ []) (canvas init)).
    { split; [intros k df; simpl; by rewrite lookup_empty|by apply Forall_nil]. }
    revert Hrun H0. generalize init.
    induction evs as [|[[today w] ev] evs IH]; intros self; simpl.
    - by intros [= <-].
    - destruct (step today w ev self) as [self1|] eqn:Hstep; [|done].
      intros Hrun H0. apply (IH self1 Hrun).
      by apply (step_frames_nonempty today w ev self). }
  destruct Hinv as [Hc Hd]. split; [exact Hc|].
  intros df name range Hin. rewrite Forall_forall in Hd.
  by apply (Hd _ Hin).
Qed.

(** A reaction changes at most one entry of [self.threads], keeping its
    kind, and may append one. *)
Lemma step_threads today w ev self self' :
  step today w ev self = Some self' →
  ∃ more,
    threads self' = threads self ++ more
    ∨ ∃ i (f : QThread → QThread),
        (∀ th, threads self !! i = Some th →
               match job th with
               | Fetch x => job (f th) = Fetch x
               | Icons _ => ∃ rest, job (f th) = Icons rest
               end)
        ∧ threads self' = alter f i (threads self) ++ more.
Proof.
  assert (Hreq : ∀ cid cname days, ∃ more,
    threads (start_chart_fetch today cid cname days self)
    = threads self ++ more).
  { intros cid cname days. unfold start_chart_fetch. cbv zeta.
    destruct (chart_cache self !! _).
    - exists []. by rewrite app_nil_r.
    - by eexists. }
  assert (Hfin : ∀ (i : nat) (th : QThread),
    threads self !! i = Some th →
    match job th with
    | Fetch x => job {| job := job th; isRunning := false |} = Fetch x
    | Icons _ => ∃ rest, job {| job := job th; isRunning := false |}
                         = Icons rest
    end).
  { intros i [[x|coins] run] _; simpl; [done|by eexists]. }
  destruct ev as [|row col|r|label|i r|i net|i reply|cid cname|];
    cbn [step].
  - intros [= <-]. eexists. by left.
  - intros [= <-]. unfold on_table_cell_clicked.
    destruct (table self !! row) as [it|];
      [|exists []; left; by rewrite app_nil_r].
    destruct (Hreq (user_role it) (text it)
                (range_days (range_dropdown self))) as [more ->].
    exists more. by left.
  - intros [= <-]. exists []. left. by rewrite app_nil_r.
  - intros [= <-]. exists []. left. by rewrite app_nil_r.
  - destruct (threads self !! i) as [[[th|coins] [|]]|] eqn:Hth; try done.
    intros Hd. destruct (deliver_threads _ _ _ _ _ Hd) as [more ->].
    exists more. right. eexists i, _. split; [apply Hfin|done].
  - destruct (threads self !! i) as [[[th|coins] [|]]|] eqn:Hth; try done.
    intros [= <-]. exists []. right. eexists i, _. split; [apply Hfin|].
    rewrite app_nil_r.
    by destruct (icons_frame (IconFetcher.run coins net)
                   (mark_finished i self)) as (_ & _ & _ & _ & ->).
  - destruct (threads self !! i) as [[[th|[|c rest]] [|]]|] eqn:Hth;
      try done.
    intros [= <-]. exists []. right.
    exists i, (λ th, {| job := Icons rest; isRunning := isRunning th |}).
    split.
    + intros th' Hth'. rewrite Hth in Hth'. injection Hth' as <-.
      simpl. by eexists.
    + rewrite app_nil_r.
      by destruct (icons_frame (IconFetcher.fetch_one (λ _, reply) c)
                     (advance i rest self)) as (_ & _ & _ & _ & ->).
  - intros [= <-]. unfold card_pressed.
    destruct (row_of _ _ _); [|exists []; left; by rewrite app_nil_r].
    destruct (Hreq cid cname (range_days (range_dropdown self)))
      as [more E].
    exists more. left. exact E.
  - intros [= <-]. exists []. left. by rewrite app_nil_r.
Qed.

(** X11. [self.threads] is append-only: along any run of the event loop
    (cell clicks, card presses and header sorts included) every thread
    object stays at its index, a fetch thread with the request it was
    started for and an icon fetcher as an icon fetcher, so the list never
    gets shorter, finished threads included. *)
Theorem threads_are_never_dropped evs self self' :
  run_loop evs self = Some self' →
  (length (threads self) ≤ length (threads self'))%nat
  ∧ ∀ i th, threads self !! i = Some th →
      ∃ th', threads self' !! i = Some th'
        ∧ match job th with
          | Fetch x => job th' = Fetch x
          | Icons _ => ∃ rest, job th' = Icons rest
          end.
Proof.
  revert self. induction evs as [|[[today w] ev] evs IH]; intros self; simpl.
  - intros [= <-]. split; [done|]. intros i th Hi. exists th.
    split; [done|]. destruct (job th); [done|by eexists].
  - destruct (step today w ev self) as [self1|] eqn:Hstep; [|done].
    intros Hrun. destruct (IH self1 Hrun) as [Hlen Hjobs].
    assert (Hone : (length (threads self) ≤ length (threads self1))%nat
      ∧ ∀ i th, threads self !! i = Some th →
          ∃ th1, threads self1 !! i = Some th1
            ∧ match job th with
              | Fetch x => job th1 = Fetch x
              | Icons _ => ∃ rest, job th1 = Icons rest
              end).
    { destruct (step_threads _ _ _ _ _ Hstep) as (more & [E|(j & f & Hf & E)]).
      - split; [rewrite E, length_app; lia|].
        intros i th Hi. exists th. split.
        + rewrite E. by apply lookup_app_l_Some.
        + destruct (job th); [done|by eexists].
      - split; [rewrite E, length_app, length_alter; lia|].
        intros i th Hi. destruct (decide (i = j)) as [->|Hij].
        + exists (f th). split; [|by apply Hf].
          rewrite E. apply lookup_app_l_Some.
          by rewrite list_lookup_alter_eq, Hi.
        + exists th. split.
          * rewrite E. apply lookup_app_l_Some.
            by rewrite list_lookup_alter_ne.
          * destruct (job th); [done|by eexists]. }
    destruct Hone as [Hlen1 Hjobs1]. split; [lia|].
    intros i th Hi. destruct (Hjobs1 i th Hi) as (th1 & Hi1 & Hk1).
    destruct (Hjobs i th1 Hi1) as (th' & Hi' & Hk').
    exists th'. split; [done|].
    destruct (job th) as [x|coins].
    + rewrite Hk1 in Hk'. done.
    + destruct Hk1 as [rest Hk1]. rewrite Hk1 in Hk'. done.
Qed.

End Invariants.

Lemma chart_cache_never_shrinks_witness :
  run_loop [ (Sample.day2, Sample.qt, CardPressed "bitcoin" "Bitcoin");
             (Sample.day2, Sample.qt,
              FetchReturned 3 (Json (Ohlc Sample.series))) ]
    Sample.charted
  = Some (Sample.after
            (Sample.snapshot [Sample.btc; Sample.eth]
             ++ [ (Sample.day1, Sample.qt, CellClicked 0 0);
                  (Sample.day1, Sample.qt,
                   FetchReturned 2 (Json (Ohlc Sample.series)));
                  (Sample.day2, Sample.qt, CardPressed "bitcoin" "Bitcoin");
                  (Sample.day2, Sample.qt,
                   FetchReturned 3 (Json (Ohlc Sample.series))) ]))
  ∧ dom (chart_cache Sample.charted)
    ⊆ dom (chart_cache
             (Sample.after
                (Sample.snapshot [Sample.btc; Sample.eth]
                 ++ [ (Sample.day1, Sample.qt, CellClicked 0 0);
                      (Sample.day1, Sample.qt,
                       FetchReturned 2 (Json (Ohlc Sample.series)));
                      (Sample.day2, Sample.qt,
                       CardPressed "bitcoin" "Bitcoin");
                      (Sample.day2, Sample.qt,
                       FetchReturned 3 (Json (Ohlc Sample.series))) ]))).
Proof.
  assert (H : run_loop
                [ (Sample.day2, Sample.qt, CardPressed "bitcoin" "Bitcoin");
                  (Sample.day2, Sample.qt,
                   FetchReturned 3 (Json (Ohlc Sample.series))) ]
                Sample.charted
              = Some (Sample.after
                        (Sample.snapshot [Sample.btc; Sample.eth]
                         ++ [ (Sample.day1, Sample.qt, CellClicked 0 0);
                              (Sample.day1, Sample.qt,
                               FetchReturned 2 (Json (Ohlc Sample.series)));
                              (Sample.day2, Sample.qt,
                               CardPressed "bitcoin" "Bitcoin");
                              (Sample.day2, Sample.qt,
                               FetchReturned 3 (Json (Ohlc Sample.series))) ])))
    by (vm_compute; reflexivity).
  split; [exact H|].
  exact (chart_cache_never_shrinks _ _ _ H).
Defined.

Lemma frames_are_never_empty_witness :
  run_loop (Sample.snapshot [Sample.btc; Sample.eth]
            ++ [ (Sample.day1, Sample.qt_reversing, HeaderClicked);
                 (Sample.day1, Sample.qt, CardPressed "bitcoin" "Bitcoin");
                 (Sample.day1, Sample.qt, FetchReturned 2 (Json (Ohlc []))) ])
    init
  = Some (Sample.after
            (Sample.snapshot [Sample.btc; Sample.eth]
             ++ [ (Sample.day1, Sample.qt_reversing, HeaderClicked);
                  (Sample.day1, Sample.qt, CardPressed "bitcoin" "Bitcoin");
                  (Sample.day1, Sample.qt,
                   FetchReturned 2 (Json (Ohlc []))) ]))
  ∧ ∀ k df,
      chart_cache
        (Sample.after
           (Sample.snapshot [Sample.btc; Sample.eth]
            ++ [ (Sample.day1, Sample.qt_reversing, HeaderClicked);
                 (Sample.day1, Sample.qt, CardPressed "bitcoin" "Bitcoin");
                 (Sample.day1, Sample.qt,
                  FetchReturned 2 (Json (Ohlc []))) ]))
        !! k = Some df →
      df ≠ [].
Proof.
  assert (H : run_loop
                (Sample.snapshot [Sample.btc; Sample.eth]
                 ++ [ (Sample.day1, Sample.qt_reversing, HeaderClicked);
                      (Sample.day1, Sample.qt,
                       CardPressed "bitcoin" "Bitcoin");
                      (Sample.day1, Sample.qt,
                       FetchReturned 2 (Json (Ohlc []))) ])
                init
              = Some (Sample.after
                        (Sample.snapshot [Sample.btc; Sample.eth]
                         ++ [ (Sample.day1, Sample.qt_reversing,
                               HeaderClicked);
                              (Sample.day1, Sample.qt,
                               CardPressed "bitcoin" "Bitcoin");
                              (Sample.day1, Sample.qt,
                               FetchReturned 2 (Json (Ohlc []))) ])))
    by (vm_compute; reflexivity).
  split; [exact H|].
  exact (proj1 (frames_are_never_empty _ _ H)).
Defined.

Lemma threads_are_never_dropped_witness :
  run_loop [ (Sample.day1, Sample.qt, CardPressed "ethereum" "Ethereum");
             (Sample.day1, Sample.qt, IconFetched 1 IconError);
             (Sample.day1, Sample.qt, FetchReturned 2 (Raised "timed out")) ]
    Sample.loaded
  = Some (Sample.after
            (Sample.snapshot [Sample.btc; Sample.eth]
             ++ [ (Sample.day1, Sample.qt,
                   CardPressed "ethereum" "Ethereum");
                  (Sample.day1, Sample.qt, IconFetched 1 IconError);
                  (Sample.day1, Sample.qt,
                   FetchReturned 2 (Raised "timed out")) ]))
  ∧ (length (threads Sample.loaded)
     ≤ length (threads
                 (Sample.after
                    (Sample.snapshot [Sample.btc; Sample.eth]
                     ++ [ (Sample.day1, Sample.qt,
                           CardPressed "ethereum" "Ethereum");
                          (Sample.day1, Sample.qt, IconFetched 1 IconError);
                          (Sample.day1, Sample.qt,
                           FetchReturned 2 (Raised "timed out")) ]))))%nat.
Proof.
  assert (H : run_loop
                [ (Sample.day1, Sample.qt,
                   CardPressed "ethereum" "Ethereum");
                  (Sample.day1, Sample.qt, IconFetched 1 IconError);
                  (Sample.day1, Sample.qt,
                   FetchReturned 2 (Raised "timed out")) ]
                Sample.loaded
              = Some (Sample.after
                        (Sample.snapshot [Sample.btc; Sample.eth]
                         ++ [ (Sample.day1, Sample.qt,
                               CardPressed "ethereum" "Ethereum");
                              (Sample.day1, Sample.qt,
                               IconFetched 1 IconError);
                              (Sample.day1, Sample.qt,
                               FetchReturned 2 (Raised "timed out")) ])))
    by (vm_compute; reflexivity).
  split; [exact H|].
  exact (proj1 (threads_are_never_dropped _ _ _ H)).
Defined.

(** ** Cards *)

Section Cards.

Implicit Types (w : world) (self : t) (today : date) (data : list coin).








End Cards.



(** ** The search filter *)

Section Filter.

Implicit Types (w : world) (self : t) (a b p s sub : string).

Lemma append_assoc a b s : (a +:+ b) +:+ s = a +:+ (b +:+ s).
Proof.
  induction a as [|c a IH]; [done|].
  change (String c ((a +:+ b) +:+ s) = String c (a +:+ (b +:+ s))).
  by rewrite IH.
Qed.

Lemma startswith_spec p s :
  Py.startswith p s = true ↔ ∃ r, s = p +:+ r.
Proof.
  revert s. induction p as [|c p IH]; intros s.
  - split; [intros _; by exists s|done].
  - destruct s as [|c' s]; cbn.
    + split; [done|]. by intros [r [=]].
    + rewrite andb_true_iff, IH. split.
      * intros [->%Ascii.eqb_eq [r ->]]. by exists r.
      * intros [r [= -> ->]]. split; [apply Ascii.eqb_refl|by exists r].
Qed.

Lemma contains_spec sub s :
  Py.contains sub s = true ↔ ∃ a b, s = a +:+ sub +:+ b.
Proof.
  induction s as [|c s IH]; cbn [Py.contains];
    rewrite orb_true_iff, startswith_spec.
  - split.
    + intros [[r Hr]|[=]]. by exists "", r.
    + intros (a & b & Hab). left. destruct a as [|c a]; [|done].
      by exists b.
  - rewrite IH. split.
    + intros [[r Hr]|(a & b & ->)]; [by exists "", r|].
      by exists (String c a), b.
    + intros (a & b & Hab). destruct a as [|c' a].
      * left. by exists b.
      * right. injection Hab as _ ->. by exists a, b.
Qed.

Lemma lower_app a b : Py.lower (a +:+ b) = Py.lower a +:+ Py.lower b.
Proof.
  induction a as [|c a IH]; [done|].
  change (String (Py.lower_ascii c) (Py.lower (a +:+ b))
          = String (Py.lower_ascii c) (Py.lower a +:+ Py.lower b)).
  by rewrite IH.
Qed.

Lemma contains_lower sub s :
  Py.contains sub s = true →
  Py.contains (Py.lower sub) (Py.lower s) = true.
Proof.
  rewrite !contains_spec. intros (a & b & ->).
  exists (Py.lower a), (Py.lower b). by rewrite !lower_app.
Qed.

Lemma contains_trans a b s :
  Py.contains a b = true → Py.contains b s = true → Py.contains a s = true.
Proof.
  rewrite !contains_spec. intros (a1 & a2 & ->) (b1 & b2 & ->).
  exists (b1 +:+ a1), (a2 +:+ b2). by rewrite !append_assoc.
Qed.

Lemma append_nil_r s : s +:+ "" = s.
Proof.
  induction s as [|c s IH]; [done|].
  change (String c (s +:+ "") = String c s). by rewrite IH.
Qed.

Lemma contains_refl s : Py.contains s s = true.
Proof.
  apply contains_spec. exists "", "".
  change (s = s +:+ ""). by rewrite append_nil_r.
Qed.

Lemma lower_ascii_idemp (c : ascii) :
  Py.lower_ascii (Py.lower_ascii c) = Py.lower_ascii c.
Proof. by destruct c as [[] [] [] [] [] [] [] []]. Qed.

Lemma lower_idemp s : Py.lower (Py.lower s) = Py.lower s.
Proof.
  induction s as [|c s IH]; [done|]. cbn. by rewrite lower_ascii_idemp, IH.
Qed.

(** X14. With an empty search text [filter_table] hides no row; and a row
    is never hidden while the search text, letter case aside, is the name
    shown in the row or the symbol of its record. *)
Theorem filter_shows_matches (search_text : string) (r : nat)
    (it : QTableWidgetItem) self :
  table self !! r = Some it →
  filter_table "" self !! r = Some false
  ∧ (Py.lower search_text = Py.lower (text it)
     ∨ Py.lower search_text = user_role1 it →
     filter_table search_text self !! r = Some false).
Proof.
  intros Hr. unfold filter_table. rewrite !list_lookup_fmap, Hr. cbn.
  split.
  - by destruct (Py.lower (text it)).
  - intros [->| ->]; by rewrite contains_refl, ?orb_true_r.
Qed.

(** X15. Making the search text longer can only hide more rows: when one
    text occurs inside another, every row hidden for the shorter text is
    hidden for the longer one. *)
Theorem filter_narrows (short long : string) (r : nat) self :
  Py.contains short long = true →
  filter_table short self !! r = Some true →
  filter_table long self !! r = Some true.
Proof.
  intros Hsub. unfold filter_table. rewrite !list_lookup_fmap.
  destruct (table self !! r) as [it|]; [|done]. cbn.
  intros [= Hhid]. f_equal.
  apply negb_true_iff, orb_false_iff in Hhid as [Hn Hs].
  apply negb_true_iff, orb_false_iff.
  apply contains_lower in Hsub.
  split; apply not_true_is_false; intros Hc.
  - by rewrite (contains_trans _ _ _ Hsub Hc) in Hn.
  - by rewrite (contains_trans _ _ _ Hsub Hc) in Hs.
Qed.

(** X16. The filter does not depend on the letter case of the search text:
    the text and its lower-case form hide the same rows. *)
Theorem filter_ignores_case (search_text : string) self :
  filter_table (Py.lower search_text) self = filter_table search_text self.
Proof. unfold filter_table. by rewrite lower_idemp. Qed.

End Filter.

Lemma filter_shows_matches_witness :
  table Sample.loaded !! 1%nat = Some (name_item Sample.eth)
  ∧ filter_table "" Sample.loaded !! 1%nat = Some false
  ∧ filter_table "ETH" Sample.loaded !! 1%nat = Some false.
Proof.
  assert (H : table Sample.loaded !! 1%nat = Some (name_item Sample.eth))
    by reflexivity.
  split; [exact H|].
  destruct (filter_shows_matches "ETH" 1 (name_item Sample.eth)
              Sample.loaded H) as [H1 H2].
  split; [exact H1|].
  exact (H2 (or_intror eq_refl)).
Defined.

Lemma filter_narrows_witness :
  Py.contains "bit" "bitc" = true
  ∧ filter_table "bit" Sample.loaded !! 1%nat = Some true
  ∧ filter_table "bitc" Sample.loaded !! 1%nat = Some true.
Proof.
  assert (Hsub : Py.contains "bit" "bitc" = true) by reflexivity.
  assert (Hhid : filter_table "bit" Sample.loaded !! 1%nat = Some true)
    by reflexivity.
  split; [exact Hsub|]. split; [exact Hhid|].
  exact (filter_narrows "bit" "bitc" 1 Sample.loaded Hsub Hhid).
Defined.

(** ** Theme *)

Section Theme.

(** X17. [toggle_theme] always lands on one of the two themes and, from
    either of them, goes to the other, so that two toggles restore the
    theme, the stylesheet and the face colour. The face colour it sets is
    the one [draw_candlestick] paints for the new theme. *)
Theorem toggle_theme_flips (l : look) :
  (theme (toggle_theme l) = "dark" ∨ theme (toggle_theme l) = "light")
  ∧ toggle_theme (toggle_theme (toggle_theme l)) = toggle_theme l
  ∧ theme (toggle_theme l) ≠ theme l
  ∧ facecolor (toggle_theme l) = chart_facecolor (theme (toggle_theme l)).
Proof.
  unfold toggle_theme, chart_facecolor. cbn.
  destruct (decide (theme l = "dark")) as [Hd|Hd].
  - rewrite !(bool_decide_eq_true_2 _ Hd). cbn. rewrite Hd.
    repeat split; (by right) || done.
  - rewrite !(bool_decide_eq_false_2 _ Hd). cbn.
    repeat split; (by left) || done || congruence.
Qed.

End Theme.

Lemma icon_signals_follow_the_payload_witness :
  ("bitcoin",
   {| isNull := false; pix_data := "https://img.example/bitcoin.png" |})
  ∈ IconFetcher.run [Sample.btc; Sample.eth; Sample.sol] Sample.net
  ∧ ∃ c u content ok,
      c ∈ [Sample.btc; Sample.eth; Sample.sol]
      ∧ coin_id c = "bitcoin" ∧ "bitcoin" ≠ ""
      ∧ coin_image c = Some u ∧ u ≠ ""
      ∧ Sample.net u = IconBytes content ok
      ∧ {| isNull := false; pix_data := "https://img.example/bitcoin.png" |}
        = {| isNull := negb ok; pix_data := if ok then content else "" |}.
Proof.
  assert (Hin : ("bitcoin",
                 {| isNull := false;
                    pix_data := "https://img.example/bitcoin.png" |})
                ∈ IconFetcher.run [Sample.btc; Sample.eth; Sample.sol]
                    Sample.net)
    by left.
  split; [exact Hin|].
  exact (proj2 (icon_signals_follow_the_payload
                  [Sample.btc; Sample.eth; Sample.sol] Sample.net) _ _ Hin).
Defined.
